(** * User-management pipeline: guards, validators, controller, service, gateway

    A shallow embedding of the "good practice" request pipeline of the
    Express + Prisma starter (middleware/auth.ts, middleware/validation.ts,
    controllers/userController.ts, services/userService.ts,
    repositories/userRepository.ts, routes/userRoutes.ts), followed by the
    properties of the pipeline stated in the specification.

    JavaScript values are dynamically typed, so request bodies, user objects
    and response payloads are values of one inductive type; objects are finite
    maps from property names to values.  The Prisma client and bcrypt are
    collaborators outside the sources: the first is modelled as an in-memory
    table and, for the properties that hold of every client, taken as a
    parameter as the repository takes it; the second is a parameter of the
    development. *)

From stdpp Require Import base option list strings gmap.
From Stdlib Require Import Ascii ZArith QArith Lia.

Set Warnings "-register-all".
Local Open Scope Z_scope.

(** ** JavaScript values *)
Module Js.

(** A Number: NaN, an infinity, or a finite value.  Finite values are kept as
    rationals: every finite double is one, and the program only compares and
    tests them, so nothing finer is observed ([-0] and [+0] compare equal). *)
Inductive number :=
| NaN
| Infinity (negative : bool)
| Finite (q : Q).

Inductive value :=
| Undefined
| Null
| Bool (b : bool)
| Num (n : number)
| Str (s : string)
| Date (ms : Z)
| Obj (props : gmap string value)
| Arr (items : list value).

Definition int (z : Z) : value := Num (Finite (inject_Z z)).

(** [typeof v] *)
Definition typeof (v : value) : string :=
  match v with
  | Undefined => "undefined"
  | Null => "object"
  | Bool _ => "boolean"
  | Num _ => "number"
  | Str _ => "string"
  | Date _ | Obj _ | Arr _ => "object"
  end.

Definition isNaN (n : number) : bool :=
  match n with NaN => true | _ => false end.

Definition num_is_zero (n : number) : bool :=
  match n with Finite q => Qeq_bool q 0 | _ => false end.

(** ToBoolean: the falsy values are undefined, null, false, 0, NaN and "". *)
Definition truthy (v : value) : bool :=
  match v with
  | Undefined | Null => false
  | Bool b => b
  | Num n => negb (isNaN n || num_is_zero n)
  | Str s => negb (String.eqb s "")
  | Date _ | Obj _ | Arr _ => true
  end.

(** [a < b] and [a === b] on Numbers: every comparison with NaN is false. *)
Definition num_ltb (a b : number) : bool :=
  match a, b with
  | NaN, _ | _, NaN => false
  | Infinity n1, Infinity n2 => n1 && negb n2
  | Infinity n, Finite _ => n
  | Finite _, Infinity n => negb n
  | Finite p, Finite q => negb (Qle_bool q p)
  end.

Definition num_eqb (a b : number) : bool :=
  match a, b with
  | Infinity n1, Infinity n2 => Bool.eqb n1 n2
  | Finite p, Finite q => Qeq_bool p q
  | _, _ => false
  end.

(** [v === n] for a Number [n], [v === s] for a string [s]: strict equality
    never converts, so a value of another type is different. *)
Definition strict_eq_num (v : value) (n : number) : bool :=
  match v with Num m => num_eqb m n | _ => false end.

Definition strict_eq_str (v : value) (s : string) : bool :=
  match v with Str t => String.eqb t s | _ => false end.

Definition is_undefined (v : value) : bool :=
  match v with Undefined => true | _ => false end.

Definition is_null (v : value) : bool :=
  match v with Null => true | _ => false end.

(** The optional parameters of the service, [x?: string] and [x?: number]
    with an integer value. *)
Definition optional_string (v : value) : Prop :=
  v = Undefined \/ exists s, v = Str s.

Definition optional_int (v : value) : Prop :=
  v = Undefined \/ exists z, v = int z.

(** Property read [o.k] on an object: a missing property reads undefined. *)
Definition get (k : string) (o : gmap string value) : value :=
  default Undefined (o !! k).

(** Rest destructuring [const { k: _, ...rest } = o]. *)
Definition omit (k : string) (o : gmap string value) : gmap string value :=
  delete k o.

(** *** Characters and strings

    A character stands for one UTF-16 code unit (those below 256). *)
Definition code (c : ascii) : Z := Z.of_N (N_of_ascii c).

Definition is_digit (c : ascii) : bool := (48 <=? code c) && (code c <=? 57).

Definition is_letter (c : ascii) : bool :=
  ((97 <=? code c) && (code c <=? 122)) || ((65 <=? code c) && (code c <=? 90)).

(** White space and line terminators: TAB, LF, VT, FF, CR, SP, NBSP.  This is
    the set of [\s], of [trim] and of the prefix skipped by [parseInt]. *)
Definition is_space (c : ascii) : bool :=
  let n := code c in
  ((9 <=? n) && (n <=? 13)) || (n =? 32) || (n =? 160).

Fixpoint trimStart (s : string) : string :=
  match s with
  | String c s' => if is_space c then trimStart s' else s
  | EmptyString => EmptyString
  end.

Definition trimEnd (s : string) : string := String.rev (trimStart (String.rev s)).

Definition trim (s : string) : string := trimEnd (trimStart s).

Definition length (s : string) : Z := Z.of_nat (String.length s).

(** Some character of [s] is in the class [p]. *)
Definition has_char (p : ascii -> bool) (s : string) : Prop :=
  exists c, In c (String.list_ascii_of_string s) /\ p c = true.

(** *** parseInt(s, 10) *)

(** The Number value of a mathematical integer: round to nearest, ties to
    even, on a 53-bit significand; magnitudes from 2^1024 on are infinite. *)
Definition to_double (z : Z) : number :=
  let a := Z.abs z in
  if a <? 2 ^ 53 then Finite (inject_Z z)
  else
    let e := Z.log2 a - 52 in
    let q := Z.shiftr a e in
    let r := a - Z.shiftl q e in
    let half := Z.shiftl 1 (e - 1) in
    let q' := if (half <? r) || ((r =? half) && Z.odd q) then q + 1 else q in
    let m := Z.shiftl q' e in
    if 2 ^ 1024 <=? m then Infinity (z <? 0)
    else Finite (inject_Z (Z.sgn z * m)).

(** The longest prefix of decimal digits, as (number of digits, value). *)
Fixpoint digits (s : string) (n : nat) (acc : Z) : nat * Z :=
  match s with
  | String c s' =>
      if is_digit c then digits s' (S n) (10 * acc + (code c - 48)) else (n, acc)
  | EmptyString => (n, acc)
  end.

(** [s] starts, after white space and an optional sign, with a decimal digit. *)
Definition numeric_prefix (s : string) : bool :=
  match trimStart s with
  | String "-"%char (String c _) | String "+"%char (String c _) => is_digit c
  | String c _ => is_digit c
  | EmptyString => false
  end.

Definition parseInt (s : string) : number :=
  let s1 := trimStart s in
  let '(sign, s2) :=
    match s1 with
    | String "-"%char r => (-1, r)
    | String "+"%char r => (1, r)
    | _ => (1, s1)
    end in
  match digits s2 0 0 with
  | (O, _) => NaN
  | (_, m) => to_double (sign * m)
  end.

End Js.

(** ** The host: conversions and library calls that are not written out

    [ToString_other] and [ToNumber_other] stand for the ECMAScript conversions
    of the values for which they are not computed here (a Number to a string,
    an object or a string to a Number).  [bcrypt_hash data rounds salt] is the
    hash string bcrypt computes for [data] with cost [rounds] and the random
    salt it drew; [bcrypt_compare data hash] is its verification. *)
Class Host := {
  ToString_other : Js.value -> string;
  ToNumber_other : Js.value -> Js.number;
  bcrypt_hash : string -> Z -> string -> string;
  bcrypt_compare : string -> string -> bool
}.

Module Conv.
Section WithHost.
Context {host : Host}.

Definition ToString (v : Js.value) : string :=
  match v with
  | Js.Str s => s
  | _ => ToString_other v
  end.

Definition ToNumber (v : Js.value) : Js.number :=
  match v with
  | Js.Undefined => Js.NaN
  | Js.Null => Js.Finite 0
  | Js.Bool b => Js.Finite (if b then 1 else 0)
  | Js.Num n => n
  | Js.Date ms => Js.Finite (inject_Z ms)
  | _ => ToNumber_other v
  end.

(** [v < n] and [v > n] against a Number: the other operand is converted. *)
Definition lt (v : Js.value) (n : Js.number) : bool := Js.num_ltb (ToNumber v) n.
Definition gt (v : Js.value) (n : Js.number) : bool := Js.num_ltb n (ToNumber v).

End WithHost.
End Conv.

(** ** Regular expressions

    The patterns of the validators use classes, sequence, [?], [+] and
    [{n,}] only; they are matched by derivatives. *)
Module Regex.

Inductive re :=
| Void
| Eps
| Class (p : ascii -> bool)
| Cat (r1 r2 : re)
| Alt (r1 r2 : re)
| Star (r : re).

Definition Chr (c : ascii) : re := Class (Ascii.eqb c).
Definition Any : re := Class (fun _ => true).
Definition Opt (r : re) : re := Alt r Eps.
Definition Plus (r : re) : re := Cat r (Star r).

Fixpoint Repeat (n : nat) (r : re) : re :=
  match n with
  | O => Eps
  | S n' => Cat r (Repeat n' r)
  end.

(** [r{n,}] *)
Definition AtLeast (n : nat) (r : re) : re := Cat (Repeat n r) (Star r).

Fixpoint nullable (r : re) : bool :=
  match r with
  | Void => false
  | Eps => true
  | Class _ => false
  | Cat r1 r2 => nullable r1 && nullable r2
  | Alt r1 r2 => nullable r1 || nullable r2
  | Star _ => true
  end.

Fixpoint deriv (c : ascii) (r : re) : re :=
  match r with
  | Void | Eps => Void
  | Class p => if p c then Eps else Void
  | Cat r1 r2 =>
      if nullable r1 then Alt (Cat (deriv c r1) r2) (deriv c r2)
      else Cat (deriv c r1) r2
  | Alt r1 r2 => Alt (deriv c r1) (deriv c r2)
  | Star r1 => Cat (deriv c r1) (Star r1)
  end.

Fixpoint matches (r : re) (s : string) : bool :=
  match s with
  | EmptyString => nullable r
  | String c s' => matches (deriv c r) s'
  end.

(** [/^r$/.test(s)]: the whole string matches. *)
Definition test_anchored (r : re) (s : string) : bool := matches r s.

(** [/r/.test(s)]: some substring matches. *)
Definition test (r : re) (s : string) : bool :=
  matches (Cat (Star Any) (Cat r (Star Any))) s.

(** The strings of a pattern, to state what the matcher decides. *)
Inductive lang : re -> string -> Prop :=
| lang_eps : lang Eps ""
| lang_class p c : p c = true -> lang (Class p) (String c "")
| lang_cat r1 r2 s1 s2 : lang r1 s1 -> lang r2 s2 -> lang (Cat r1 r2) (s1 +:+ s2)
| lang_alt_l r1 r2 s : lang r1 s -> lang (Alt r1 r2) s
| lang_alt_r r1 r2 s : lang r2 s -> lang (Alt r1 r2) s
| lang_star_nil r : lang (Star r) ""
| lang_star_cons r s1 s2 : lang r s1 -> lang (Star r) s2 -> lang (Star r) (s1 +:+ s2).

Fixpoint existsb (p : ascii -> bool) (s : string) : bool :=
  match s with
  | EmptyString => false
  | String c s' => p c || existsb p s'
  end.

End Regex.

(** ** Requests and responses *)
Module Http.

Record Response := {
  status : Z;
  json : Js.value
}.

(** The request as the handlers read it: headers, the [:id] path parameter,
    the parsed JSON body, and the [userId] and [userRole] properties the
    authentication guard stores on it (undefined until then). *)
Record Request := {
  headers : gmap string string;
  params_id : string;
  body : gmap string Js.value;
  userId : Js.value;
  userRole : Js.value
}.

Definition with_body (req : Request) (b : gmap string Js.value) : Request :=
  {| headers := headers req; params_id := params_id req; body := b;
     userId := userId req; userRole := userRole req |}.

Definition header (req : Request) (name : string) : Js.value :=
  match headers req !! name with
  | Some s => Js.Str s
  | None => Js.Undefined
  end.

(** A middleware either calls [next()] (with the request as it left it) or
    sends a response, which ends the chain. *)
Inductive outcome :=
| next (req : Request)
| respond (res : Response).

Definition error_json (status : Z) (msg : string) : Response :=
  {| status := status; json := Js.Obj {[ "error" := Js.Str msg ]} |}.

Definition as_str (v : Js.value) : string :=
  match v with Js.Str s => s | _ => "" end.

Definition as_num (v : Js.value) : Js.number :=
  match v with Js.Num n => n | _ => Js.NaN end.

End Http.

(** ** middleware/auth.ts *)
Module Auth.
Import Http.

Definition requireAuth (req : Request) : outcome :=
  let userId := header req "x-user-id" in
  let userRole := header req "x-user-role" in
  if negb (Js.truthy userId) then
    respond (error_json 401 "Unauthorized: User ID required")
  else
    next {| headers := headers req; params_id := params_id req; body := body req;
            userId := Js.Num (Js.parseInt (as_str userId));
            userRole := userRole |}.

Definition requireAdmin (req : Request) : outcome :=
  let userRole := userRole req in
  if negb (Js.strict_eq_str userRole "admin") then
    respond (error_json 403 "Forbidden: Admin access required")
  else next req.

Definition requireOwnershipOrAdmin (req : Request) : outcome :=
  let userId := userId req in
  let userRole := userRole req in
  let targetUserId := Js.parseInt (params_id req) in
  if Js.isNaN targetUserId then
    respond (error_json 400 "Invalid user ID")
  else if negb (Js.strict_eq_num userId targetUserId)
          && negb (Js.strict_eq_str userRole "admin") then
    respond (error_json 403 "Forbidden: Cannot access other user resources")
  else next req.

(** The "bad practice" twin: no check at all. *)
Definition badRequireAuth (req : Request) : outcome := next req.

End Auth.

(** ** middleware/validation.ts *)
Module Validation.
Import Http Regex.

(** [/^\+?[\d\s-()]{10,}$/] *)
Definition phone_char (c : ascii) : bool :=
  Js.is_digit c || Js.is_space c || Ascii.eqb c "-" || Ascii.eqb c "(" || Ascii.eqb c ")".

Definition phoneRegex : re := Cat (Opt (Chr "+")) (AtLeast 10 (Class phone_char)).

(** [/^[^\s@]+@[^\s@]+\.[^\s@]+$/] *)
Definition email_char (c : ascii) : bool := negb (Js.is_space c || Ascii.eqb c "@").

Definition emailRegex : re :=
  Cat (Plus (Class email_char))
      (Cat (Chr "@") (Cat (Plus (Class email_char))
                          (Cat (Chr ".") (Plus (Class email_char))))).

Definition validateUserProfileUpdate (req : Request) : outcome :=
  let name := Js.get "name" (body req) in
  let bio := Js.get "bio" (body req) in
  let age := Js.get "age" (body req) in
  let phone := Js.get "phone" (body req) in
  if negb (Js.is_undefined name)
     && (negb (String.eqb (Js.typeof name) "string")
         || (Js.length (Js.trim (as_str name)) =? 0)) then
    respond (error_json 400 "Name must be a non-empty string")
  else if negb (Js.is_undefined name) && (100 <? Js.length (as_str name)) then
    respond (error_json 400 "Name must be less than 100 characters")
  else if negb (Js.is_undefined bio) && negb (String.eqb (Js.typeof bio) "string") then
    respond (error_json 400 "Bio must be a string")
  else if negb (Js.is_undefined bio) && (500 <? Js.length (as_str bio)) then
    respond (error_json 400 "Bio must be less than 500 characters")
  else if negb (Js.is_undefined age)
          && (negb (String.eqb (Js.typeof age) "number")
              || Js.num_ltb (as_num age) (Js.Finite 0)
              || Js.num_ltb (Js.Finite 150) (as_num age)) then
    respond (error_json 400 "Age must be a number between 0 and 150")
  else if negb (Js.is_undefined phone) && negb (Js.is_null phone)
          && negb (String.eqb (Js.typeof phone) "string") then
    respond (error_json 400 "Phone must be a string")
  else if negb (Js.is_undefined phone) && negb (Js.is_null phone)
          && negb (test_anchored phoneRegex (as_str phone)) then
    respond (error_json 400 "Invalid phone number format")
  else next req.

Definition badValidateUserProfile (req : Request) : outcome := next req.

Section WithHost.
Context {host : Host}.

Definition validateEmail (req : Request) : outcome :=
  let email := Js.get "email" (body req) in
  if negb (Js.truthy email) then
    respond (error_json 400 "Email is required")
  else if negb (test_anchored emailRegex (Conv.ToString email)) then
    respond (error_json 400 "Invalid email format")
  else next req.

End WithHost.

Definition validatePassword (req : Request) : outcome :=
  let password := Js.get "password" (body req) in
  if negb (Js.truthy password) then
    respond (error_json 400 "Password is required")
  else if negb (String.eqb (Js.typeof password) "string")
          || (Js.length (as_str password) <? 8) then
    respond (error_json 400 "Password must be at least 8 characters")
  else
    let hasNumber := test (Class Js.is_digit) (as_str password) in
    let hasLetter := test (Class Js.is_letter) (as_str password) in
    if negb hasNumber || negb hasLetter then
      respond (error_json 400 "Password must contain at least one letter and one number")
    else next req.

End Validation.

(** ** Exceptions and asynchronous calls

    A rejected promise and a thrown exception are the same thing under
    [await]; the thrown value is an [Error] of the program or one of the two
    error classes of the Prisma client. *)
Module Exn.

Inductive exn :=
| Error (message : string)
| PrismaClientKnownRequestError (code : string) (message : string)
| PrismaClientValidationError (message : string).

Definition message (e : exn) : string :=
  match e with
  | Error m => m
  | PrismaClientKnownRequestError _ m => m
  | PrismaClientValidationError m => m
  end.

(** The exceptions raised by the storage client, as opposed to the program. *)
Definition is_storage_exception (e : exn) : bool :=
  match e with
  | Error _ => false
  | PrismaClientKnownRequestError _ _ | PrismaClientValidationError _ => true
  end.

Inductive result (A : Type) :=
| Ok (a : A)
| Throw (e : exn).
Arguments Ok {A} a.
Arguments Throw {A} e.

End Exn.

(** ** The Prisma client on the User table

    An in-memory table standing for the client on calls with values of the
    declared types.  It fixes choices the sources do not show (the text of the
    client's messages, the range of an identifier, what the client does with
    a key that is no column); the properties that are to hold whatever the
    client does are stated over [Injected.PrismaClient] further down. *)
Module Prisma.
Import Exn.

(** Modelled from the spec: the User table, whose declaration
    (prisma/schema.prisma) is not among the sources.  An account has a
    numeric identifier assigned by the persistence layer, a unique email, a
    password, an optional name, bio, age (an integer) and phone, and a
    creation timestamp. *)
Record User := {
  id : Z;
  email : string;
  name : option string;
  password : string;
  bio : option string;
  age : option Z;
  phone : option string;
  createdAt : Z
}.

(** The table, the next value of the identifier sequence, and the time. *)
Record db := {
  users : list User;
  next_id : Z;
  clock : Z
}.

(** A call of the client runs on the database and returns or throws. *)
Definition M (A : Type) : Type := db -> result A * db.

Definition ret {A} (a : A) : M A := fun st => (Ok a, st).
Definition throw {A} (e : exn) : M A := fun st => (Throw e, st).
Definition bind {A B} (m : M A) (k : A -> M B) : M B :=
  fun st =>
    match m st with
    | (Ok a, st') => k a st'
    | (Throw e, st') => (Throw e, st')
    end.
Definition try_catch {A} (m : M A) (handler : exn -> M A) : M A :=
  fun st =>
    match m st with
    | (Ok a, st') => (Ok a, st')
    | (Throw e, st') => handler e st'
    end.

Definition nullable_str (o : option string) : Js.value :=
  match o with Some s => Js.Str s | None => Js.Null end.

Definition nullable_int (o : option Z) : Js.value :=
  match o with Some z => Js.int z | None => Js.Null end.

(** The object the client returns for a row. *)
Definition to_object (u : User) : gmap string Js.value :=
  {[ "id" := Js.int (id u);
     "email" := Js.Str (email u);
     "name" := nullable_str (name u);
     "password" := Js.Str (password u);
     "bio" := nullable_str (bio u);
     "age" := nullable_int (age u);
     "phone" := nullable_str (phone u);
     "createdAt" := Js.Date (createdAt u) ]}.

Definition found (o : option User) : Js.value :=
  match o with Some u => Js.Obj (to_object u) | None => Js.Null end.

(** An argument of a query: left out (undefined), given, or of a type the
    column does not take, which the client rejects before it runs anything. *)
Inductive arg (A : Type) :=
| Omitted
| Given (a : A)
| Invalid.
Arguments Omitted {A}.
Arguments Given {A} a.
Arguments Invalid {A}.

Definition arg_int (v : Js.value) : arg Z :=
  match v with
  | Js.Undefined => Omitted
  | Js.Num (Js.Finite q) =>
      if (Z.pos (Qden (Qred q)) =? 1) then Given (Qnum (Qred q)) else Invalid
  | _ => Invalid
  end.

Definition arg_str (v : Js.value) : arg string :=
  match v with
  | Js.Undefined => Omitted
  | Js.Str s => Given s
  | _ => Invalid
  end.

Definition arg_nullable_str (v : Js.value) : arg (option string) :=
  match v with
  | Js.Undefined => Omitted
  | Js.Null => Given None
  | Js.Str s => Given (Some s)
  | _ => Invalid
  end.

Definition arg_nullable_int (v : Js.value) : arg (option Z) :=
  match v with
  | Js.Null => Given None
  | _ => match arg_int v with
         | Omitted => Omitted
         | Given z => Given (Some z)
         | Invalid => Invalid
         end
  end.

Definition is_invalid {A} (a : arg A) : bool :=
  match a with Invalid => true | _ => false end.

Definition or_keep {A} (a : arg A) (old : A) : A :=
  match a with Given x => x | _ => old end.

Definition validation_error {A} : M A :=
  throw (PrismaClientValidationError "Invalid value provided for an argument.").

Definition not_found {A} : M A :=
  throw (PrismaClientKnownRequestError "P2025"
    "An operation failed because it depends on one or more records that were required but not found.").

Definition unique_violation {A} : M A :=
  throw (PrismaClientKnownRequestError "P2002"
    "Unique constraint failed on the fields: (`email`)").

Definition by_id (z : Z) (u : User) : bool := id u =? z.
Definition by_email (e : string) (u : User) : bool := String.eqb (email u) e.

(** [prisma.user.findUnique({ where })], with [where] either [{ id }] or
    [{ email }]. *)
Definition findUnique (where_ : gmap string Js.value) : M Js.value :=
  match arg_int (Js.get "id" where_), arg_str (Js.get "email" where_) with
  | Given z, Omitted => fun st => (Ok (found (List.find (by_id z) (users st))), st)
  | Omitted, Given e => fun st => (Ok (found (List.find (by_email e) (users st))), st)
  | _, _ => validation_error
  end.

(** [prisma.user.create({ data })]: email and password are required, the
    identifier comes from the sequence, the timestamp from the clock. *)
Definition create (data : gmap string Js.value) : M Js.value :=
  match arg_str (Js.get "email" data), arg_str (Js.get "password" data) with
  | Given e, Given p =>
      let n := arg_nullable_str (Js.get "name" data) in
      let b := arg_nullable_str (Js.get "bio" data) in
      let a := arg_nullable_int (Js.get "age" data) in
      let ph := arg_nullable_str (Js.get "phone" data) in
      if is_invalid n || is_invalid b || is_invalid a || is_invalid ph then
        validation_error
      else fun st =>
        if List.existsb (by_email e) (users st) then unique_violation st
        else
          let u := {| id := next_id st; email := e; name := or_keep n None;
                      password := p; bio := or_keep b None; age := or_keep a None;
                      phone := or_keep ph None; createdAt := clock st |} in
          (Ok (Js.Obj (to_object u)),
           {| users := users st ++ [u]; next_id := next_id st + 1; clock := clock st |})
  | _, _ => validation_error
  end.

(** The row after an update: a column changes when its argument is given. *)
Definition set_columns (data : gmap string Js.value) (u : User) : User :=
  {| id := id u;
     email := or_keep (arg_str (Js.get "email" data)) (email u);
     name := or_keep (arg_nullable_str (Js.get "name" data)) (name u);
     password := or_keep (arg_str (Js.get "password" data)) (password u);
     bio := or_keep (arg_nullable_str (Js.get "bio" data)) (bio u);
     age := or_keep (arg_nullable_int (Js.get "age" data)) (age u);
     phone := or_keep (arg_nullable_str (Js.get "phone" data)) (phone u);
     createdAt := createdAt u |}.

Definition valid_columns (data : gmap string Js.value) : bool :=
  negb (is_invalid (arg_str (Js.get "email" data))
        || is_invalid (arg_str (Js.get "password" data))
        || is_invalid (arg_nullable_str (Js.get "name" data))
        || is_invalid (arg_nullable_str (Js.get "bio" data))
        || is_invalid (arg_nullable_int (Js.get "age" data))
        || is_invalid (arg_nullable_str (Js.get "phone" data))).

(** A new email must not be the email of another row. *)
Definition email_taken (e : arg string) (z : Z) (rows : list User) : bool :=
  match e with
  | Given e' => List.existsb (fun v => by_email e' v && negb (by_id z v)) rows
  | _ => false
  end.

(** [prisma.user.update({ where: { id }, data })] *)
Definition update (where_ data : gmap string Js.value) : M Js.value :=
  match arg_int (Js.get "id" where_) with
  | Given z =>
      if negb (valid_columns data) then validation_error
      else fun st =>
        match List.find (by_id z) (users st) with
        | None => not_found st
        | Some u =>
            if email_taken (arg_str (Js.get "email" data)) z (users st)
            then unique_violation st
            else
              (Ok (Js.Obj (to_object (set_columns data u))),
               {| users := List.map (fun v => if by_id z v then set_columns data v else v)
                                    (users st);
                  next_id := next_id st; clock := clock st |})
        end
  | _ => validation_error
  end.

(** [prisma.user.delete({ where: { id } })] *)
Definition delete (where_ : gmap string Js.value) : M Js.value :=
  match arg_int (Js.get "id" where_) with
  | Given z => fun st =>
      match List.find (by_id z) (users st) with
      | None => not_found st
      | Some u =>
          (Ok (Js.Obj (to_object u)),
           {| users := List.filter (fun v => negb (by_id z v)) (users st);
              next_id := next_id st; clock := clock st |})
      end
  | _ => validation_error
  end.

End Prisma.

Declare Scope async_scope.
Delimit Scope async_scope with async.
Notation "x <- m ;; k" := (Prisma.bind m (fun x => k))
  (at level 100, m at next level, right associativity) : async_scope.

(** ** bcrypt *)
Module Bcrypt.
Import Exn Prisma.
Section WithHost.
Context {host : Host}.

(** [bcrypt.hash(data, rounds)]: the promise rejects when [data] is missing
    or not a string; [salt] is the random salt drawn for this call. *)
Definition hash (data : Js.value) (rounds : Z) (salt : string) : M string :=
  match data with
  | Js.Undefined | Js.Null => throw (Error "data and salt arguments required")
  | Js.Str s => ret (bcrypt_hash s rounds salt)
  | _ => throw (Error
      "data must be a string or Buffer and salt must either be a salt string or a number of rounds")
  end.

(** [bcrypt.compare(data, hash)] *)
Definition compare (data hash : Js.value) : M bool :=
  match data, hash with
  | (Js.Undefined | Js.Null), _ | _, (Js.Undefined | Js.Null) =>
      throw (Error "data and hash arguments required")
  | Js.Str d, Js.Str h => ret (bcrypt_compare d h)
  | _, _ => throw (Error "data and hash must be strings")
  end.

End WithHost.
End Bcrypt.

(** ** repositories/userRepository.ts *)
Module UserRepository.
Import Prisma.

Definition findById (id : Js.number) : M Js.value :=
  Prisma.findUnique {[ "id" := Js.Num id ]}.

Definition findByEmail (email : Js.value) : M Js.value :=
  Prisma.findUnique {[ "email" := email ]}.

Definition create (data : gmap string Js.value) : M Js.value :=
  Prisma.create data.

Definition update (id : Js.number) (data : gmap string Js.value) : M Js.value :=
  Prisma.update {[ "id" := Js.Num id ]} data.

Definition delete (id : Js.number) : M Js.value :=
  Prisma.delete {[ "id" := Js.Num id ]}.

End UserRepository.

(** ** services/userService.ts *)
Module UserService.
Import Exn Prisma.
Local Open Scope async_scope.

(** The own properties of a value under rest destructuring. *)
Definition props (v : Js.value) : gmap string Js.value :=
  match v with Js.Obj o => o | _ => ∅ end.

Section WithHost.
Context {host : Host}.

Definition createUser (email password name bio age phone : Js.value) (salt : string)
  : M Js.value :=
  existingUser <- UserRepository.findByEmail email ;;
  if Js.truthy existingUser then
    throw (Error "User with this email already exists")
  else
    let saltRounds := 10 in
    hashedPassword <- Bcrypt.hash password saltRounds salt ;;
    UserRepository.create
      {[ "email" := email;
         "password" := Js.Str hashedPassword;
         "name" := name;
         "bio" := bio;
         "age" := age;
         "phone" := phone ]}.

Definition updateUserProfile (userId : Js.number) (updates : gmap string Js.value)
  : M Js.value :=
  user <- UserRepository.findById userId ;;
  if negb (Js.truthy user) then
    throw (Error "User not found")
  else if negb (Js.is_undefined (Js.get "age" updates))
          && (Conv.lt (Js.get "age" updates) (Js.Finite 0)
              || Conv.gt (Js.get "age" updates) (Js.Finite 150)) then
    throw (Error "Invalid age")
  else UserRepository.update userId updates.

Definition getUserProfile (userId : Js.number) : M Js.value :=
  user <- UserRepository.findById userId ;;
  if negb (Js.truthy user) then
    throw (Error "User not found")
  else
    let userWithoutPassword := Js.omit "password" (props user) in
    ret (Js.Obj userWithoutPassword).

Definition authenticateUser (email password : Js.value) : M Js.value :=
  user <- UserRepository.findByEmail email ;;
  if negb (Js.truthy user) then
    throw (Error "Invalid credentials")
  else
    isPasswordValid <- Bcrypt.compare password (Js.get "password" (props user)) ;;
    if negb isPasswordValid then
      throw (Error "Invalid credentials")
    else
      let userWithoutPassword := Js.omit "password" (props user) in
      ret (Js.Obj userWithoutPassword).

End WithHost.

(** The "bad practice" twin stores the password as it came. *)
Definition badCreateUser (email password name : Js.value) : M Js.value :=
  UserRepository.create
    {[ "email" := email; "password" := password; "name" := name ]}.

End UserService.

(** ** controllers/userController.ts *)
Module UserController.
Import Exn Prisma Http.
Local Open Scope async_scope.

Definition send (status : Z) (payload : gmap string Js.value) : M Response :=
  ret {| status := status; json := Js.Obj payload |}.

Definition send_error (status : Z) (msg : string) : M Response :=
  ret (error_json status msg).

(** The object [{ name, bio, age, phone }] built from the body. *)
Definition profile_fields (b : gmap string Js.value) : gmap string Js.value :=
  {[ "name" := Js.get "name" b;
     "bio" := Js.get "bio" b;
     "age" := Js.get "age" b;
     "phone" := Js.get "phone" b ]}.

Section WithHost.
Context {host : Host}.

Definition createUser (req : Request) (salt : string) : M Response :=
  try_catch
    (let email := Js.get "email" (body req) in
     let password := Js.get "password" (body req) in
     let name := Js.get "name" (body req) in
     let bio := Js.get "bio" (body req) in
     let age := Js.get "age" (body req) in
     let phone := Js.get "phone" (body req) in
     user <- UserService.createUser email password name bio age phone salt ;;
     let userWithoutPassword := Js.omit "password" (UserService.props user) in
     send 201 {[ "message" := Js.Str "User created successfully";
                 "user" := Js.Obj userWithoutPassword ]})
    (fun error =>
       if String.eqb (message error) "User with this email already exists" then
         send_error 409 "User with this email already exists"
       else send_error 500 "Internal server error").

Definition getUserProfile (req : Request) : M Response :=
  try_catch
    (let userId := Js.parseInt (params_id req) in
     user <- UserService.getUserProfile userId ;;
     ret {| status := 200; json := user |})
    (fun error =>
       if String.eqb (message error) "User not found" then
         send_error 404 "User not found"
       else send_error 500 "Internal server error").

Definition updateUserProfile (req : Request) : M Response :=
  try_catch
    (let userId := Js.parseInt (params_id req) in
     updatedUser <- UserService.updateUserProfile userId (profile_fields (body req)) ;;
     let userWithoutPassword := Js.omit "password" (UserService.props updatedUser) in
     send 200 {[ "message" := Js.Str "Profile updated successfully";
                 "user" := Js.Obj userWithoutPassword ]})
    (fun error =>
       if String.eqb (message error) "User not found" then
         send_error 404 "User not found"
       else if String.eqb (message error) "Invalid age" then
         send_error 400 "Invalid age"
       else send_error 500 "Internal server error").

End WithHost.
End UserController.

(** ** routes/userRoutes.ts *)
Module Routes.
Import Exn Prisma Http.

(** The middleware of a route run in order; the handler runs when every one
    of them called [next()]. *)
Fixpoint chain (mws : list (Request -> outcome)) (handler : Request -> M Response)
  (req : Request) : M Response :=
  match mws with
  | [] => handler req
  | mw :: rest =>
      match mw req with
      | next req' => chain rest handler req'
      | respond res => ret res
      end
  end.

Section WithHost.
Context {host : Host}.

(** POST /users *)
Definition post_users (salt : string) : Request -> M Response :=
  chain [Validation.validateEmail; Validation.validatePassword]
        (fun req => UserController.createUser req salt).

(** GET /users/:id *)
Definition get_user : Request -> M Response :=
  chain [Auth.requireAuth; Auth.requireOwnershipOrAdmin]
        UserController.getUserProfile.

(** PUT /users/:id *)
Definition put_user : Request -> M Response :=
  chain [Auth.requireAuth; Auth.requireOwnershipOrAdmin;
         Validation.validateUserProfileUpdate]
        UserController.updateUserProfile.

End WithHost.
End Routes.

(** ** Vocabulary of the properties *)
Module Contract.
Import Exn Prisma Http.

(** The two business errors of the service that the claims name. *)
Definition duplicate_account : exn := Error "User with this email already exists".
Definition invalid_credentials : exn := Error "Invalid credentials".

(** The row [create] inserts for the object the service builds. *)
Definition new_row (st : db) (e h : string) (name bio age phone : Js.value) : User :=
  {| id := next_id st; email := e; name := or_keep (arg_nullable_str name) None;
     password := h; bio := or_keep (arg_nullable_str bio) None;
     age := or_keep (arg_nullable_int age) None;
     phone := or_keep (arg_nullable_str phone) None; createdAt := clock st |}.

(** An age as the data model has it: absent, or an integer from 0 to 150. *)
Definition age_in_range (v : Js.value) : Prop :=
  v = Js.Undefined \/ exists a, v = Js.int a /\ 0 <= a <= 150.

(** A phone as the profile validator lets it through: null, absent, a string. *)
Definition optional_nullable_string (v : Js.value) : Prop :=
  v = Js.Null \/ Js.optional_string v.

(** A client or server error: a status from 400 on and a body [{ error }]. *)
Definition is_error (res : Response) : Prop :=
  exists code msg, res = error_json code msg /\ 400 <= code.

(** The image of a stored account without its password. *)
Definition public_account (st : db) (account : gmap string Js.value) : Prop :=
  exists u, In u (users st) /\ account = Js.omit "password" (to_object u).

(** A success response with the account under [user], next to a message. *)
Definition account_under_user (st : db) (code : Z) (res : Response) : Prop :=
  exists message account,
    res = {| status := code;
             json := Js.Obj {[ "message" := Js.Str message; "user" := Js.Obj account ]} |}
    /\ public_account st account /\ account !! "password" = None.

(** A success response whose body is the account. *)
Definition account_as_body (st : db) (code : Z) (res : Response) : Prop :=
  exists account,
    res = {| status := code; json := Js.Obj account |}
    /\ public_account st account /\ account !! "password" = None.

(** Every middleware that answers, answers with an error. *)
Definition rejects_with_error (mw : Request -> outcome) : Prop :=
  forall req res, mw req = respond res -> is_error res.

End Contract.

(** ** Concrete inputs for the examples *)
Module Example.
Import Prisma Http.

(** A host whose hash is the salted plaintext behind the bcrypt prefix. *)
Definition host : Host := {|
  ToString_other := fun _ => "[object Object]";
  ToNumber_other := fun _ => Js.NaN;
  bcrypt_hash := fun data rounds salt => "$2b$10$" +:+ salt +:+ data;
  bcrypt_compare := fun data hash => String.eqb hash ("$2b$10$" +:+ "salt" +:+ data)
|}.

Definition request (h : gmap string string) (id : string) (b : gmap string Js.value)
  : Request :=
  {| headers := h; params_id := id; body := b;
     userId := Js.Undefined; userRole := Js.Undefined |}.

(** A request as the authentication guard leaves it. *)
Definition identified (uid role : Js.value) (id : string) : Request :=
  {| headers := ∅; params_id := id; body := ∅; userId := uid; userRole := role |}.

Definition alice : User :=
  {| id := 1; email := "x@y.com"; name := None; password := "$2b$10$saltabc12345";
     bio := None; age := None; phone := None; createdAt := 0 |}.

Definition db_empty : db := {| users := []; next_id := 1; clock := 0 |}.
Definition db_alice : db := {| users := [alice]; next_id := 2; clock := 0 |}.

End Example.

(** ** More of JavaScript: [<=], [===] on any two values, and [Map] *)
Module JsExtra.
Import Js.

(** [a <= b] on Numbers. *)
Definition num_leb (a b : number) : bool :=
  match a, b with
  | NaN, _ | _, NaN => false
  | Infinity n1, Infinity n2 => n1 || negb n2
  | Infinity n, Finite _ => n
  | Finite _, Infinity n => negb n
  | Finite p, Finite q => Qle_bool p q
  end.

(** [a === b].  Two objects are equal only as references; the objects here
    are read from the table or from a request, one per read, so an object is
    strictly equal to no other value. *)
Definition strict_eq (a b : value) : bool :=
  match a with
  | Undefined => is_undefined b
  | Null => is_null b
  | Bool x => match b with Bool y => Bool.eqb x y | _ => false end
  | Num n => strict_eq_num b n
  | Str s => strict_eq_str b s
  | Date _ | Obj _ | Arr _ => false
  end.

(** SameValueZero on Numbers, the equality of [Map] keys: as [===], but NaN
    is the same key as NaN. *)
Definition same_value_zero (a b : number) : bool :=
  match a, b with
  | NaN, NaN => true
  | _, _ => num_eqb a b
  end.

(** [v.length] for any value [v]. *)
Definition length_of (v : value) : value :=
  match v with
  | Str s => int (length s)
  | Arr l => int (Z.of_nat (List.length l))
  | Obj o => get "length" o
  | _ => Undefined
  end.

(** A [Map] with Number keys, in insertion order. *)
Section NumMap.
Context {A : Type}.

Fixpoint map_get (k : number) (m : list (number * A)) : option A :=
  match m with
  | [] => None
  | (k', v) :: m' => if same_value_zero k' k then Some v else map_get k m'
  end.

Definition map_has (k : number) (m : list (number * A)) : bool :=
  match map_get k m with Some _ => true | None => false end.

Fixpoint map_set (k : number) (v : A) (m : list (number * A)) : list (number * A) :=
  match m with
  | [] => [(k, v)]
  | (k', v') :: m' =>
      if same_value_zero k' k then (k', v) :: m' else (k', v') :: map_set k v m'
  end.

Fixpoint map_delete (k : number) (m : list (number * A)) : list (number * A) :=
  match m with
  | [] => []
  | (k', v') :: m' =>
      if same_value_zero k' k then m' else (k', v') :: map_delete k m'
  end.

(** No key occurs twice: what [set] and [delete] keep. *)
Fixpoint map_wf (m : list (number * A)) : Prop :=
  match m with
  | [] => True
  | (k, _) :: m' => map_get k m' = None /\ map_wf m'
  end.

End NumMap.
End JsExtra.

(** ** services/dryViolations.ts *)
Module DryViolations.
Import Regex.

Definition validateEmailFormat1 (email : string) : bool :=
  if negb (Js.truthy (Js.Str email)) then false
  else test_anchored Validation.emailRegex email.

Definition validateEmailFormat2 (email : string) : bool :=
  if negb (Js.truthy (Js.Str email)) then false
  else test_anchored Validation.emailRegex email.

Definition checkEmail (email : string) : bool :=
  if Js.is_null (Js.Str email) || Js.is_undefined (Js.Str email)
     || Js.strict_eq_str (Js.Str email) "" then false
  else test_anchored Validation.emailRegex email.

Definition validateAge1 (age : Js.number) : bool :=
  JsExtra.num_leb (Js.Finite 0) age && JsExtra.num_leb age (Js.Finite 150).

Definition validateAge2 (age : Js.number) : bool :=
  if Js.num_ltb age (Js.Finite 0) then false
  else if Js.num_ltb (Js.Finite 150) age then false
  else true.

Definition checkPasswordStrength1 (password : string) : bool :=
  if negb (Js.truthy (Js.Str password)) || (Js.length password <? 8) then false
  else
    let hasNumber := test (Class Js.is_digit) password in
    let hasLetter := test (Class Js.is_letter) password in
    hasNumber && hasLetter.

Definition checkPasswordStrength2 (password : string) : bool :=
  if Js.length password <? 8 then false
  else
    let hasDigit := test (Class Js.is_digit) password in
    let hasAlpha := test (Class Js.is_letter) password in
    hasDigit && hasAlpha.

End DryViolations.

(** ** services/userService.ts: BadUserService and UserManager *)
Module BadUserService.
Import Exn Prisma.
Local Open Scope async_scope.

Definition badGetUserProfile (userId : Js.number) : M Js.value :=
  UserRepository.findById userId.

Definition badAuthenticateUser (email password : Js.value) : M Js.value :=
  user <- UserRepository.findByEmail email ;;
  if negb (Js.truthy user) then
    throw (Error "Invalid credentials")
  else if negb (JsExtra.strict_eq (Js.get "password" (UserService.props user)) password) then
    throw (Error "Invalid credentials")
  else ret user.

End BadUserService.

Module UserManager.
Import Exn Prisma JsExtra.
Local Open Scope async_scope.

(** The private [cache: Map<number, any>] of the manager. *)
Definition Cache : Type := list (Js.number * Js.value).

Definition getUser (id : Js.number) : M Js.value :=
  UserRepository.findById id.

(** [getCachedUser(id)], with the cache before and after the call. *)
Definition getCachedUser (id : Js.number) (cache : Cache) : M (Js.value * Cache) :=
  if map_has id cache then
    ret (default Js.Undefined (map_get id cache), cache)
  else
    user <- UserRepository.findById id ;;
    ret (user, map_set id user cache).

End UserManager.

(** ** UserCacheService, the caching layer next to the service *)
Module UserCacheService.
Import JsExtra.

(** An entry [{ data, timestamp }]. *)
Record Entry := {
  data : Js.value;
  timestamp : Z
}.

Definition Cache : Type := list (Js.number * Entry).

Definition TTL : Z := 3600000.

(** [set(key, value)], [now] being what [Date.now()] returns. *)
Definition set (key : Js.number) (value : Js.value) (now : Z) (cache : Cache) : Cache :=
  map_set key {| data := value; timestamp := now |} cache.

(** [get(key)]: the value returned and the cache after the call. *)
Definition get (key : Js.number) (now : Z) (cache : Cache) : Js.value * Cache :=
  match map_get key cache with
  | None => (Js.Null, cache)
  | Some cached =>
      if TTL <? now - timestamp cached then (Js.Null, map_delete key cache)
      else (data cached, cache)
  end.

Definition invalidate (key : Js.number) (cache : Cache) : Cache :=
  map_delete key cache.

Definition clear (cache : Cache) : Cache := [].

End UserCacheService.

(** ** controllers/userController.ts: BadUserController *)

(** [error.stack], which the bad controller sends to the client. *)
Class Trace := {
  stack : Exn.exn -> Js.value
}.

Module BadUserController.
Import Exn Prisma Http.
Local Open Scope async_scope.

Section WithHost.
Context {host : Host} {trace : Trace}.

(** [console.log] writes to the process output only and is left out. *)
Definition badCreateUser (req : Request) : M Response :=
  let email := Js.get "email" (body req) in
  let password := Js.get "password" (body req) in
  let name := Js.get "name" (body req) in
  if negb (Js.truthy email) || negb (Js.truthy password) then
    ret (error_json 400 "Email and password required")
  else if Conv.lt (JsExtra.length_of password) (Js.Finite 6) then
    ret (error_json 400 "Password too short")
  else
    existingUser <- Prisma.findUnique {[ "email" := email ]} ;;
    if Js.truthy existingUser then
      ret (error_json 409 "User exists")
    else
      user <- Prisma.create
                {[ "email" := email;
                   "password" := password;
                   "name" := if Js.truthy name then name else Js.Str "Unknown" ]} ;;
      ret {| status := 201;
             json := Js.Obj {[ "success" := Js.Bool true;
                               "message" := Js.Str "User created";
                               "data" := user ]} |}.

Definition badUpdateUser (req : Request) : M Response :=
  let userId := Js.parseInt (params_id req) in
  let updates := body req in
  try_catch
    (user <- Prisma.update {[ "id" := Js.Num userId ]} updates ;;
     ret {| status := 200; json := user |})
    (fun error =>
       ret {| status := 500;
              json := Js.Obj {[ "error" := Js.Str "Database error";
                                "details" := Js.Str (message error);
                                "stack" := stack error ]} |}).

End WithHost.
End BadUserController.

(** ** routes/userRoutes.ts: the routes under /bad *)
Module BadRoutes.
Import Exn Prisma Http.

Section WithHost.
Context {host : Host} {trace : Trace}.

(** POST /bad/users *)
Definition post_bad_users : Request -> M Response :=
  Routes.chain [Validation.badValidateUserProfile] BadUserController.badCreateUser.

(** PUT /bad/users/:id *)
Definition put_bad_user : Request -> M Response :=
  Routes.chain [Auth.badRequireAuth] BadUserController.badUpdateUser.

End WithHost.
End BadRoutes.

(** ** Vocabulary of the further properties *)
Module Shapes.
Import Exn Prisma Http.

(** Every character of [s] is in the class [p]. *)
Fixpoint all_chars (p : ascii -> bool) (s : string) : bool :=
  match s with
  | EmptyString => true
  | String c s' => p c && all_chars p s'
  end.

(** A non-empty string of characters that are neither white space nor "@". *)
Definition email_part (s : string) : Prop :=
  s <> "" /\ all_chars Validation.email_char s = true.

(** [local@domain.tld] *)
Definition email_shape (s : string) : Prop :=
  exists a b c,
    s = a +:+ "@" +:+ b +:+ "." +:+ c
    /\ email_part a /\ email_part b /\ email_part c.

(** A phone number without its optional leading "+". *)
Definition strip_plus (s : string) : string :=
  match s with
  | String "+"%char r => r
  | _ => s
  end.

(** At least 10 characters, each a digit, white space, "-", "(" or ")". *)
Definition phone_shape (s : string) : bool :=
  (10 <=? Js.length (strip_plus s)) && all_chars Validation.phone_char (strip_plus s).

Definition name_ok (v : Js.value) : Prop :=
  v = Js.Undefined
  \/ exists s, v = Js.Str s /\ all_chars Js.is_space s = false /\ Js.length s <= 100.

Definition bio_ok (v : Js.value) : Prop :=
  v = Js.Undefined \/ exists s, v = Js.Str s /\ Js.length s <= 500.

(** The age test as written: a Number neither below 0 nor above 150. *)
Definition age_ok (v : Js.value) : Prop :=
  v = Js.Undefined
  \/ exists n, v = Js.Num n /\ Js.num_ltb n (Js.Finite 0) = false
               /\ Js.num_ltb (Js.Finite 150) n = false.

Definition phone_ok (v : Js.value) : Prop :=
  v = Js.Undefined \/ v = Js.Null \/ exists s, v = Js.Str s /\ phone_shape s = true.

(** The identifiers below the sequence, no identifier and no email twice. *)
Definition db_wf (st : db) : Prop :=
  Forall (fun u => id u < next_id st) (users st)
  /\ List.NoDup (List.map id (users st))
  /\ List.NoDup (List.map email (users st)).

(** The error messages written in the middleware and the controller. *)
Definition pipeline_messages : list string :=
  [ "Unauthorized: User ID required";
    "Invalid user ID";
    "Forbidden: Cannot access other user resources";
    "Email is required";
    "Invalid email format";
    "Password is required";
    "Password must be at least 8 characters";
    "Password must contain at least one letter and one number";
    "Name must be a non-empty string";
    "Name must be less than 100 characters";
    "Bio must be a string";
    "Bio must be less than 500 characters";
    "Age must be a number between 0 and 150";
    "Phone must be a string";
    "Invalid phone number format";
    "User with this email already exists";
    "User not found";
    "Invalid age";
    "Internal server error" ].

Definition known_error (res : Response) : Prop :=
  exists code msg,
    res = error_json code msg /\ 400 <= code /\ In msg pipeline_messages.

End Shapes.

(** ** The pipeline over an injected client

    The repository gets the Prisma client through its constructor
    ([new UserRepository(prisma)]); here the client is a parameter, with
    whatever state [S] it keeps, so that a property proved below holds of
    every client and not of one model of it. *)
Module Async.
Import Exn.

(** An asynchronous call runs on the state of the client and returns or
    throws. *)
Definition M (S A : Type) : Type := S -> result A * S.

Section WithState.
Context {S : Type}.

Definition ret {A} (a : A) : M S A := fun st => (Ok a, st).
Definition throw {A} (e : exn) : M S A := fun st => (Throw e, st).
Definition bind {A B} (m : M S A) (k : A -> M S B) : M S B :=
  fun st =>
    match m st with
    | (Ok a, st') => k a st'
    | (Throw e, st') => (Throw e, st')
    end.
Definition try_catch {A} (m : M S A) (handler : exn -> M S A) : M S A :=
  fun st =>
    match m st with
    | (Ok a, st') => (Ok a, st')
    | (Throw e, st') => handler e st'
    end.

End WithState.
End Async.

Declare Scope client_scope.
Delimit Scope client_scope with client.
Notation "x <- m ;; k" := (Async.bind m (fun x => k))
  (at level 100, m at next level, right associativity) : client_scope.

Module Injected.
Import Exn Async.

(** The three calls of [prisma.user] the pipeline makes on one record, typed
    as the repository declares them: [findUnique] resolves to [User | null],
    [update] and [delete] to [User]; a [User] is an object. *)
Record PrismaClient (S : Type) := {
  findUnique : gmap string Js.value -> M S (option (gmap string Js.value));
  update : gmap string Js.value -> gmap string Js.value -> M S (gmap string Js.value);
  delete : gmap string Js.value -> M S (gmap string Js.value)
}.
Arguments findUnique {S} _ _ _.
Arguments update {S} _ _ _ _.
Arguments delete {S} _ _ _.

(** [User | null] as a value. *)
Definition nullable (o : option (gmap string Js.value)) : Js.value :=
  match o with Some u => Js.Obj u | None => Js.Null end.

End Injected.

(** *** repositories/userRepository.ts *)
Module UserRepositoryOf.
Import Async Injected.
Section WithClient.
Context {S : Type} (prisma : PrismaClient S).

Definition findById (id : Js.number) : M S (option (gmap string Js.value)) :=
  findUnique prisma {[ "id" := Js.Num id ]}.

Definition update (id : Js.number) (data : gmap string Js.value)
  : M S (gmap string Js.value) :=
  Injected.update prisma {[ "id" := Js.Num id ]} data.

Definition delete (id : Js.number) : M S (gmap string Js.value) :=
  Injected.delete prisma {[ "id" := Js.Num id ]}.

End WithClient.
End UserRepositoryOf.

(** *** services/userService.ts *)
Module UserServiceOf.
Import Exn Async Injected.
Local Open Scope client_scope.
Section WithClient.
Context {host : Host} {S : Type} (prisma : PrismaClient S).

Definition updateUserProfile (userId : Js.number) (updates : gmap string Js.value)
  : M S (gmap string Js.value) :=
  user <- UserRepositoryOf.findById prisma userId ;;
  if negb (Js.truthy (nullable user)) then
    throw (Error "User not found")
  else if negb (Js.is_undefined (Js.get "age" updates))
          && (Conv.lt (Js.get "age" updates) (Js.Finite 0)
              || Conv.gt (Js.get "age" updates) (Js.Finite 150)) then
    throw (Error "Invalid age")
  else UserRepositoryOf.update prisma userId updates.

Definition getUserProfile (userId : Js.number) : M S (gmap string Js.value) :=
  user <- UserRepositoryOf.findById prisma userId ;;
  if negb (Js.truthy (nullable user)) then
    throw (Error "User not found")
  else
    let userWithoutPassword := Js.omit "password" (UserService.props (nullable user)) in
    ret userWithoutPassword.

End WithClient.
End UserServiceOf.

(** *** controllers/userController.ts *)
Module UserControllerOf.
Import Exn Async Injected Http.
Local Open Scope client_scope.
Section WithClient.
Context {host : Host} {S : Type} (prisma : PrismaClient S).

Definition send (status : Z) (payload : gmap string Js.value) : M S Response :=
  ret {| status := status; json := Js.Obj payload |}.

Definition send_error (status : Z) (msg : string) : M S Response :=
  ret (error_json status msg).

Definition getUserProfile (req : Request) : M S Response :=
  try_catch
    (let userId := Js.parseInt (params_id req) in
     user <- UserServiceOf.getUserProfile prisma userId ;;
     ret {| status := 200; json := Js.Obj user |})
    (fun error =>
       if String.eqb (message error) "User not found" then
         send_error 404 "User not found"
       else send_error 500 "Internal server error").

Definition updateUserProfile (req : Request) : M S Response :=
  try_catch
    (let userId := Js.parseInt (params_id req) in
     updatedUser <- UserServiceOf.updateUserProfile prisma userId
                      (UserController.profile_fields (body req)) ;;
     let userWithoutPassword := Js.omit "password" updatedUser in
     send 200 {[ "message" := Js.Str "Profile updated successfully";
                 "user" := Js.Obj userWithoutPassword ]})
    (fun error =>
       if String.eqb (message error) "User not found" then
         send_error 404 "User not found"
       else if String.eqb (message error) "Invalid age" then
         send_error 400 "Invalid age"
       else send_error 500 "Internal server error").

End WithClient.
End UserControllerOf.

(** *** controllers/userController.ts: BadUserController *)
Module BadUserControllerOf.
Import Exn Async Injected Http.
Local Open Scope client_scope.
Section WithClient.
Context {trace : Trace} {S : Type} (prisma : PrismaClient S).

Definition badUpdateUser (req : Request) : M S Response :=
  let userId := Js.parseInt (params_id req) in
  let updates := body req in
  try_catch
    (user <- Injected.update prisma {[ "id" := Js.Num userId ]} updates ;;
     ret {| status := 200; json := Js.Obj user |})
    (fun error =>
       ret {| status := 500;
              json := Js.Obj {[ "error" := Js.Str "Database error";
                                "details" := Js.Str (message error);
                                "stack" := stack error ]} |}).

End WithClient.
End BadUserControllerOf.

(** *** routes/userRoutes.ts *)
Module RoutesOf.
Import Exn Async Injected Http.
Section WithClient.
Context {host : Host} {trace : Trace} {S : Type} (prisma : PrismaClient S).

Fixpoint chain (mws : list (Request -> outcome)) (handler : Request -> M S Response)
  (req : Request) : M S Response :=
  match mws with
  | [] => handler req
  | mw :: rest =>
      match mw req with
      | next req' => chain rest handler req'
      | respond res => ret res
      end
  end.

(** GET /users/:id *)
Definition get_user : Request -> M S Response :=
  chain [Auth.requireAuth; Auth.requireOwnershipOrAdmin]
        (UserControllerOf.getUserProfile prisma).

(** PUT /users/:id *)
Definition put_user : Request -> M S Response :=
  chain [Auth.requireAuth; Auth.requireOwnershipOrAdmin;
         Validation.validateUserProfileUpdate]
        (UserControllerOf.updateUserProfile prisma).

(** PUT /bad/users/:id *)
Definition put_bad_user : Request -> M S Response :=
  chain [Auth.badRequireAuth] (BadUserControllerOf.badUpdateUser prisma).

End WithClient.
End RoutesOf.

(** *** Vocabulary *)
Module ClientContract.
Import Exn.




End ClientContract.

(** ** More concrete inputs *)
Module Example2.
Import Prisma Http.

(** A stack trace that names the exception. *)
Definition trace : Trace := {|
  stack := fun e => Js.Str ("Error: " +:+ Exn.message e)
|}.

(** PUT /users/1 sent by user [uid] without a role. *)
Definition by_user (uid id : string) (b : gmap string Js.value) : Request :=
  Example.request {[ "x-user-id" := uid ]} id b.

Definition bob : User :=
  {| id := 2; email := "bob@y.com"; name := Some "Bob"; password := "hunter22";
     bio := None; age := Some 41; phone := None; createdAt := 5 |}.

Definition db_two : db := {| users := [Example.alice; bob]; next_id := 3; clock := 7 |}.

(** The in-memory table as an injected client. *)
Definition as_user (m : M Js.value) : Async.M db (gmap string Js.value) :=
  fun st =>
    match m st with
    | (Exn.Ok v, st') => (Exn.Ok (UserService.props v), st')
    | (Exn.Throw e, st') => (Exn.Throw e, st')
    end.

Definition as_user_or_null (m : M Js.value)
  : Async.M db (option (gmap string Js.value)) :=
  fun st =>
    match m st with
    | (Exn.Ok (Js.Obj u), st') => (Exn.Ok (Some u), st')
    | (Exn.Ok _, st') => (Exn.Ok None, st')
    | (Exn.Throw e, st') => (Exn.Throw e, st')
    end.

Definition table : Injected.PrismaClient db := {|
  Injected.findUnique := fun where_ => as_user_or_null (Prisma.findUnique where_);
  Injected.update := fun where_ data => as_user (Prisma.update where_ data);
  Injected.delete := fun where_ => as_user (Prisma.delete where_)
|}.

(** A client that has lost its connection: every call is rejected. *)
Definition offline : Injected.PrismaClient unit := {|
  Injected.findUnique := fun _ => Async.throw (Exn.Error "Can't reach database server");
  Injected.update := fun _ _ => Async.throw (Exn.Error "Can't reach database server");
  Injected.delete := fun _ => Async.throw (Exn.Error "Can't reach database server")
|}.

End Example2.

Module RegexFacts.
Import Regex.

Lemma app_nil_l (s : string) : "" +:+ s = s.
Proof. reflexivity. Qed.

Lemma app_cons (c : ascii) (s t : string) : String c s +:+ t = String c (s +:+ t).
Proof. reflexivity. Qed.

Lemma app_eq_nil (s t : string) : s +:+ t = "" -> s = "" /\ t = "".
Proof. destruct s; [rewrite app_nil_l; auto | rewrite app_cons; discriminate]. Qed.

Lemma app_eq_cons (c : ascii) (s s1 s2 : string) :
  s1 +:+ s2 = String c s ->
  (s1 = "" /\ s2 = String c s) \/ (exists t, s1 = String c t /\ s = t +:+ s2).
Proof.
  destruct s1 as [|d t]; [left; auto|].
  rewrite app_cons. intros [= -> <-]. right; eauto.
Qed.

Lemma lang_cat_inv r1 r2 s :
  lang (Cat r1 r2) s -> exists s1 s2, s = s1 +:+ s2 /\ lang r1 s1 /\ lang r2 s2.
Proof. inversion 1; subst; eauto. Qed.

Lemma lang_alt_inv r1 r2 s : lang (Alt r1 r2) s -> lang r1 s \/ lang r2 s.
Proof. inversion 1; subst; auto. Qed.

Lemma lang_class_inv p s : lang (Class p) s -> exists c, s = String c "" /\ p c = true.
Proof. inversion 1; subst; eauto. Qed.

Lemma lang_eps_inv s : lang Eps s -> s = "".
Proof. inversion 1; auto. Qed.

Lemma lang_void_inv s : ~ lang Void s.
Proof. inversion 1. Qed.

(** A non-empty string of [r*] starts with a non-empty string of [r]. *)
Lemma lang_star_inv r s :
  lang (Star r) s ->
  s = "" \/ exists c s1 s2, s = String c (s1 +:+ s2) /\ lang r (String c s1) /\ lang (Star r) s2.
Proof.
  remember (Star r) as r' eqn:E. induction 1; try discriminate; auto.
  injection E as ->. destruct s1 as [|c s1].
  - rewrite app_nil_l. auto.
  - right. exists c, s1, s2. auto.
Qed.

Lemma nullable_lang r : nullable r = true <-> lang r "".
Proof.
  induction r as [| |p|r1 IH1 r2 IH2|r1 IH1 r2 IH2|r IH]; simpl.
  - split; [discriminate | intros H; destruct (lang_void_inv _ H)].
  - split; [constructor | auto].
  - split; [discriminate|]. intros (c & E & _)%lang_class_inv. discriminate.
  - rewrite andb_true_iff, IH1, IH2. split.
    + intros [H1 H2]. apply (lang_cat r1 r2 "" ""); auto.
    + intros (s1 & s2 & E & H1 & H2)%lang_cat_inv.
      symmetry in E. apply app_eq_nil in E as [-> ->]. auto.
  - rewrite orb_true_iff, IH1, IH2. split.
    + intros [H|H]; [apply lang_alt_l | apply lang_alt_r]; auto.
    + apply lang_alt_inv.
  - split; [constructor | auto].
Qed.

Lemma deriv_lang c r : forall s, lang (deriv c r) s <-> lang r (String c s).
Proof.
  induction r as [| |p|r1 IH1 r2 IH2|r1 IH1 r2 IH2|r IH]; intros s; simpl.
  - split; intros H; destruct (lang_void_inv _ H).
  - split; [intros H; destruct (lang_void_inv _ H) | intros H%lang_eps_inv; discriminate].
  - destruct (p c) eqn:Hp; split.
    + intros ->%lang_eps_inv. constructor; auto.
    + intros (d & [= -> ->] & _)%lang_class_inv. constructor.
    + intros H; destruct (lang_void_inv _ H).
    + intros (d & [= -> ->] & Hd)%lang_class_inv. congruence.
  - assert (Hcat : lang (Cat (deriv c r1) r2) s ->
                   lang (Cat r1 r2) (String c s)).
    { intros (s1 & s2 & -> & H1 & H2)%lang_cat_inv.
      rewrite <- app_cons. constructor; auto. apply IH1; auto. }
    destruct (nullable r1) eqn:Hn; split.
    + intros [H|H]%lang_alt_inv; auto.
      rewrite <- (app_nil_l (String c s)). constructor.
      * apply nullable_lang; auto.
      * apply IH2; auto.
    + intros (s1 & s2 & E & H1 & H2)%lang_cat_inv.
      symmetry in E. apply app_eq_cons in E as [[-> ->] | (t & -> & ->)].
      * apply lang_alt_r. apply IH2; auto.
      * apply lang_alt_l. constructor; auto. apply IH1; auto.
    + auto.
    + intros (s1 & s2 & E & H1 & H2)%lang_cat_inv.
      symmetry in E. apply app_eq_cons in E as [[-> ->] | (t & -> & ->)].
      * apply nullable_lang in H1. congruence.
      * constructor; auto. apply IH1; auto.
  - split.
    + intros [H|H]%lang_alt_inv; [apply lang_alt_l; apply IH1 | apply lang_alt_r; apply IH2]; auto.
    + intros [H|H]%lang_alt_inv; [apply lang_alt_l; apply IH1 | apply lang_alt_r; apply IH2]; auto.
  - split.
    + intros (s1 & s2 & -> & H1 & H2)%lang_cat_inv.
      rewrite <- app_cons. constructor; auto. apply IH; auto.
    + intros [E | (d & s1 & s2 & [= -> ->] & H1 & H2)]%lang_star_inv; [discriminate|].
      constructor; auto. apply IH; auto.
Qed.

Lemma matches_lang s : forall r, matches r s = true <-> lang r s.
Proof.
  induction s as [|c s IH]; intros r; simpl.
  - apply nullable_lang.
  - rewrite IH. apply deriv_lang.
Qed.

Lemma lang_star_any s : lang (Star Any) s.
Proof.
  induction s as [|c s IH]; [constructor|].
  change (String c s) with (String c "" +:+ s). constructor; auto. constructor; auto.
Qed.

Lemma existsb_split p s :
  existsb p s = true <-> exists s1 c s2, s = s1 +:+ String c s2 /\ p c = true.
Proof.
  induction s as [|d s IH]; simpl.
  - split; [discriminate|]. intros (s1 & c & s2 & E & _).
    symmetry in E. apply app_eq_nil in E as [_ E]. discriminate.
  - rewrite orb_true_iff, IH. split.
    + intros [H | (s1 & c & s2 & -> & H)].
      * exists "", d, s. auto.
      * exists (String d s1), c, s2. auto.
    + intros (s1 & c & s2 & E & H). symmetry in E.
      apply app_eq_cons in E as [[-> [= -> ->]] | (t & -> & ->)]; eauto 6.
Qed.

(** An unanchored one-character pattern finds a character of the class. *)
Lemma test_class p s : test (Class p) s = existsb p s.
Proof.
  apply eq_true_iff_eq. unfold test. rewrite matches_lang, existsb_split. split.
  - intros (s1 & t & -> & _ & (t1 & s2 & -> & (c & -> & Hc)%lang_class_inv & _)%lang_cat_inv)%lang_cat_inv.
    exists s1, c, s2. auto.
  - intros (s1 & c & s2 & -> & Hc).
    constructor; [apply lang_star_any|].
    change (String c s2) with (String c "" +:+ s2).
    constructor; [constructor; auto | apply lang_star_any].
Qed.

Lemma existsb_In p s :
  existsb p s = true <-> exists c, In c (String.list_ascii_of_string s) /\ p c = true.
Proof.
  induction s as [|d s IH]; simpl.
  - split; [discriminate | intros (c & [] & _)].
  - rewrite orb_true_iff, IH. split.
    + intros [H | (c & Hin & H)]; eauto.
    + intros (c & [-> | Hin] & H); eauto.
Qed.

End RegexFacts.

Section ValidatorFacts.
Import Http Validation.

Lemma has_char_existsb p s : Js.has_char p s <-> Regex.existsb p s = true.
Proof. symmetry. apply RegexFacts.existsb_In. Qed.

Lemma strict_eq_str_iff v s : Js.strict_eq_str v s = true <-> v = Js.Str s.
Proof.
  destruct v; simpl; try (split; [discriminate | intros [=]]).
  rewrite String.eqb_eq. split; [intros -> | intros [= ->]]; auto.
Qed.

(** C8.  The password validator lets a request through exactly when the
    [password] property of the body is a string of at least 8 characters with
    at least one ASCII letter and at least one decimal digit.  Otherwise it
    answers 400 with the message of the first rule that fails: a missing
    (falsy) password, then a value that is not a string of 8 characters, then
    a string without a letter or without a digit.  It rejects "short1" and
    "alllettersnodigit" and accepts "abc12345". *)
Theorem validatePassword_accepts_iff (req : Request) :
  let password := Js.get "password" (body req) in
  (validatePassword req = next req <->
     exists s, password = Js.Str s /\ 8 <= Js.length s
               /\ Js.has_char Js.is_letter s /\ Js.has_char Js.is_digit s)
  /\ (Js.truthy password = false ->
      validatePassword req = respond (error_json 400 "Password is required"))
  /\ (Js.truthy password = true ->
      (forall s, password = Js.Str s -> Js.length s < 8) ->
      validatePassword req =
        respond (error_json 400 "Password must be at least 8 characters"))
  /\ (forall s, password = Js.Str s -> 8 <= Js.length s ->
      ~ (Js.has_char Js.is_letter s /\ Js.has_char Js.is_digit s) ->
      validatePassword req =
        respond (error_json 400 "Password must contain at least one letter and one number"))
  /\ (password = Js.Str "short1" ->
      validatePassword req =
        respond (error_json 400 "Password must be at least 8 characters"))
  /\ (password = Js.Str "alllettersnodigit" ->
      validatePassword req =
        respond (error_json 400 "Password must contain at least one letter and one number"))
  /\ (password = Js.Str "abc12345" -> validatePassword req = next req).
Proof.
  intros password. unfold validatePassword. fold password.
  repeat rewrite RegexFacts.test_class.
  assert (Hstr : forall s, password = Js.Str s -> 8 <= Js.length s ->
            Js.truthy password = true).
  { intros s -> Hlen. simpl. destruct s; [unfold Js.length in Hlen; simpl in Hlen; lia | reflexivity]. }
  repeat split.
  - intros H. destruct (Js.truthy password) eqn:Ht; simpl in H; [|discriminate].
    destruct password eqn:Hp; simpl in H; try discriminate.
    destruct (Z.ltb_spec (Js.length s) 8) as [Hlen|Hlen]; simpl in H; [discriminate|].
    destruct (Regex.existsb Js.is_digit s) eqn:Hd; simpl in H; [|discriminate].
    destruct (Regex.existsb Js.is_letter s) eqn:Hl; simpl in H; [|discriminate].
    exists s. rewrite !has_char_existsb. repeat split; auto.
  - intros (s & Hp & Hlen & Hl & Hd).
    rewrite (Hstr s Hp Hlen). rewrite Hp. simpl.
    apply has_char_existsb in Hl, Hd. rewrite Hl, Hd.
    destruct (Z.ltb_spec (Js.length s) 8); [lia | reflexivity].
  - intros ->. reflexivity.
  - intros -> Hshort. simpl.
    destruct password eqn:Hp; simpl; try reflexivity.
    specialize (Hshort s eq_refl).
    destruct (Z.ltb_spec (Js.length s) 8); [reflexivity | lia].
  - intros s Hp Hlen Hno. rewrite (Hstr s Hp Hlen). rewrite Hp. simpl.
    destruct (Z.ltb_spec (Js.length s) 8); [lia|]. simpl.
    destruct (Regex.existsb Js.is_digit s) eqn:Hd; simpl; [|reflexivity].
    destruct (Regex.existsb Js.is_letter s) eqn:Hl; simpl; [|reflexivity].
    exfalso. apply Hno. rewrite !has_char_existsb. auto.
  - intros ->. reflexivity.
  - intros ->. reflexivity.
  - intros ->. reflexivity.
Qed.
End ValidatorFacts.

Section GuardFacts.
Import Http Auth.

Lemma to_double_not_NaN z : Js.to_double z <> Js.NaN.
Proof.
  unfold Js.to_double. destruct (Z.abs z <? 2 ^ 53); [discriminate|].
  match goal with |- context [if ?b then Js.Infinity _ else _] => destruct b end;
    discriminate.
Qed.

Lemma digits_count_ge s : forall n acc, (n <= fst (Js.digits s n acc))%nat.
Proof.
  induction s as [|c s IH]; intros n acc; simpl; [lia|].
  destruct (Js.is_digit c); simpl; [|lia].
  specialize (IH (S n) (10 * acc + (Js.code c - 48))). lia.
Qed.

Lemma digits_NaN_iff s sign :
  match Js.digits s 0 0 with (O, _) => Js.NaN | (_, m) => Js.to_double (sign * m) end = Js.NaN
  <-> match s with String c _ => Js.is_digit c | EmptyString => false end = false.
Proof.
  destruct s as [|c s]; simpl; [tauto|].
  destruct (Js.is_digit c) eqn:Hc; [|tauto].
  pose proof (digits_count_ge s 1 (10 * 0 + (Js.code c - 48))) as Hge.
  destruct (Js.digits s 1 (10 * 0 + (Js.code c - 48))) as [[|k] m]; simpl in Hge; [lia|].
  split; [intros H; destruct (to_double_not_NaN _ H) | discriminate].
Qed.

(** [parseInt] is NaN exactly on the strings without a numeric prefix. *)
Lemma parseInt_NaN_iff s : Js.parseInt s = Js.NaN <-> Js.numeric_prefix s = false.
Proof.
  unfold Js.parseInt, Js.numeric_prefix.
  destruct (Js.trimStart s) as [|c r] eqn:E; [simpl; tauto|].
  destruct (Ascii.eqb_spec c "-") as [->|Hm]; [|destruct (Ascii.eqb_spec c "+") as [->|Hp]].
  - rewrite digits_NaN_iff. destruct r; tauto.
  - rewrite digits_NaN_iff. destruct r; tauto.
  - assert (Hd : Js.is_digit c = true -> c <> "-"%char /\ c <> "+"%char) by auto.
    replace (let '(sign, s2) :=
               match String c r with
               | String "-"%char r0 => (-1, r0)
               | String "+"%char r0 => (1, r0)
               | _ => (1, String c r)
               end in
             match Js.digits s2 0 0 with
             | (O, _) => Js.NaN
             | (S _, m) => Js.to_double (sign * m)
             end)
      with (match Js.digits (String c r) 0 0 with
            | (O, _) => Js.NaN
            | (S _, m) => Js.to_double (1 * m)
            end).
    2:{ destruct c as [[] [] [] [] [] [] [] []]; try reflexivity; congruence. }
    rewrite digits_NaN_iff.
    destruct c as [[] [] [] [] [] [] [] []]; try tauto; congruence.
Qed.

Lemma isNaN_true_iff n : Js.isNaN n = true <-> n = Js.NaN.
Proof. destruct n; simpl; split; congruence. Qed.

Lemma isNaN_false_iff n : Js.isNaN n = false <-> n <> Js.NaN.
Proof. destruct n; simpl; split; congruence. Qed.

Lemma strict_eq_str_false_iff v s : Js.strict_eq_str v s = false <-> v <> Js.Str s.
Proof. rewrite <- strict_eq_str_iff. destruct (Js.strict_eq_str v s); split; congruence. Qed.

(** C6.  The ownership-or-admin guard answers 400 "Invalid user ID" when the
    [:id] parameter does not parse to a number; otherwise it calls [next()]
    when the stored identity is strictly equal to the parsed id or the stored
    role is "admin", and answers 403 in every other case.  The two statuses
    differ.  Identity 5 on id "5" passes; identity 5 on id "7" is refused
    without the admin role and passes with it; id "abc" is an invalid target. *)
Theorem requireOwnershipOrAdmin_decides (req : Request) :
  let target := Js.parseInt (params_id req) in
  (target = Js.NaN ->
   requireOwnershipOrAdmin req = respond (error_json 400 "Invalid user ID"))
  /\ (target <> Js.NaN ->
      Js.strict_eq_num (userId req) target = true \/ userRole req = Js.Str "admin" ->
      requireOwnershipOrAdmin req = next req)
  /\ (target <> Js.NaN ->
      Js.strict_eq_num (userId req) target = false ->
      userRole req <> Js.Str "admin" ->
      requireOwnershipOrAdmin req =
        respond (error_json 403 "Forbidden: Cannot access other user resources"))
  /\ status (error_json 400 "Invalid user ID")
     <> status (error_json 403 "Forbidden: Cannot access other user resources")
  /\ (userId req = Js.int 5 -> params_id req = "5" ->
      requireOwnershipOrAdmin req = next req)
  /\ (userId req = Js.int 5 -> params_id req = "7" -> userRole req <> Js.Str "admin" ->
      requireOwnershipOrAdmin req =
        respond (error_json 403 "Forbidden: Cannot access other user resources"))
  /\ (userId req = Js.int 5 -> params_id req = "7" -> userRole req = Js.Str "admin" ->
      requireOwnershipOrAdmin req = next req)
  /\ (params_id req = "abc" ->
      requireOwnershipOrAdmin req = respond (error_json 400 "Invalid user ID")).
Proof.
  intros target. unfold requireOwnershipOrAdmin. fold target.
  assert (Hpass : target <> Js.NaN ->
            Js.strict_eq_num (userId req) target = true \/ userRole req = Js.Str "admin" ->
            (if Js.isNaN target then respond (error_json 400 "Invalid user ID")
             else if negb (Js.strict_eq_num (userId req) target)
                     && negb (Js.strict_eq_str (userRole req) "admin")
                  then respond (error_json 403 "Forbidden: Cannot access other user resources")
                  else next req) = next req).
  { intros Hn%isNaN_false_iff Hok. rewrite Hn.
    destruct Hok as [-> | ->%strict_eq_str_iff]; simpl; [reflexivity|].
    rewrite andb_false_r. reflexivity. }
  assert (Hdeny : target <> Js.NaN ->
            Js.strict_eq_num (userId req) target = false ->
            userRole req <> Js.Str "admin" ->
            (if Js.isNaN target then respond (error_json 400 "Invalid user ID")
             else if negb (Js.strict_eq_num (userId req) target)
                     && negb (Js.strict_eq_str (userRole req) "admin")
                  then respond (error_json 403 "Forbidden: Cannot access other user resources")
                  else next req)
            = respond (error_json 403 "Forbidden: Cannot access other user resources")).
  { intros Hn%isNaN_false_iff -> ->%strict_eq_str_false_iff. rewrite Hn. reflexivity. }
  repeat split.
  - intros ->. reflexivity.
  - exact Hpass.
  - exact Hdeny.
  - simpl. lia.
  - intros Hu Hp. apply Hpass; subst target; rewrite Hp; [discriminate|].
    left. rewrite Hu. reflexivity.
  - intros Hu Hp Hr. apply Hdeny; subst target; try rewrite Hp; [discriminate| |exact Hr].
    rewrite Hu. reflexivity.
  - intros Hu Hp Hr. apply Hpass; subst target; rewrite Hp; [discriminate|].
    right. exact Hr.
  - intros Hp. subst target. rewrite Hp. reflexivity.
Qed.

(** C9.  The authentication guard lets through every request whose
    [x-user-id] header is a non-empty string, whatever it contains: the
    identity it stores is [parseInt] of the header, which is NaN when the
    header has no numeric prefix.  NaN is strictly equal to no target id, so
    with such an identity the ownership-or-admin guard passes exactly when
    the [x-user-role] header is "admin" (and the path id is numeric). *)
Theorem requireAuth_accepts_any_nonempty_id (req : Request) (h : string) :
  headers req !! "x-user-id" = Some h -> h <> "" ->
  exists req',
    requireAuth req = next req'
    /\ userId req' = Js.Num (Js.parseInt h)
    /\ userRole req' = header req "x-user-role"
    /\ params_id req' = params_id req
    /\ (Js.numeric_prefix h = false -> Js.parseInt h = Js.NaN)
    /\ (Js.parseInt h = Js.NaN ->
        (forall target, Js.strict_eq_num (userId req') target = false)
        /\ (requireOwnershipOrAdmin req' = next req' <->
            headers req !! "x-user-role" = Some "admin"
            /\ Js.parseInt (params_id req) <> Js.NaN)).
Proof.
  intros Hh Hne. unfold requireAuth, header. rewrite Hh.
  assert (Ht : Js.truthy (Js.Str h) = true).
  { simpl. destruct h; [congruence | reflexivity]. }
  rewrite Ht. simpl negb. cbv iota.
  eexists. split; [reflexivity|]. simpl.
  split; [reflexivity|]. split; [reflexivity|]. split; [reflexivity|].
  split; [apply parseInt_NaN_iff|].
  intros Hnan. split; [intros target; rewrite Hnan; reflexivity|].
  unfold requireOwnershipOrAdmin; simpl. rewrite Hnan. simpl.
  destruct (Js.isNaN (Js.parseInt (params_id req))) eqn:E.
  - split; [discriminate|]. intros [_ Hn]. apply isNaN_true_iff in E. contradiction.
  - apply isNaN_false_iff in E.
    destruct (headers req !! "x-user-role") as [r|]; simpl.
    + destruct (String.eqb_spec r "admin") as [->|Hr]; simpl.
      * split; auto.
      * split; [discriminate|]. intros [[= ->] _]. contradiction.
    + split; [discriminate|]. intros [[=] _].
Qed.

End GuardFacts.

Section ProfileValidatorFacts.
Import Http Validation.

Lemma get_delete_ne (k k' : string) (o : gmap string Js.value) :
  k <> k' -> Js.get k' (delete k o) = Js.get k' o.
Proof. intros Hne. unfold Js.get. rewrite lookup_delete_ne; auto. Qed.

Lemma get_delete_eq (k : string) (o : gmap string Js.value) :
  Js.get k (delete k o) = Js.Undefined.
Proof. unfold Js.get. rewrite lookup_delete_eq. reflexivity. Qed.

(** C10.  The profile validator treats null differently per field.  A body
    whose [phone] is null gets the verdict it would get without the phone
    (with the other three fields absent it passes), and the null goes on to
    the service in the object the controller builds.  A body whose [name],
    [bio] or [age] is null is answered 400. *)
Theorem validateUserProfileUpdate_null_asymmetry (req : Request) :
  let b := body req in
  (Js.get "phone" b = Js.Null ->
   validateUserProfileUpdate req =
     match validateUserProfileUpdate (with_body req (delete "phone" b)) with
     | next _ => next req
     | respond res => respond res
     end)
  /\ (Js.get "phone" b = Js.Null -> Js.get "name" b = Js.Undefined ->
      Js.get "bio" b = Js.Undefined -> Js.get "age" b = Js.Undefined ->
      validateUserProfileUpdate req = next req)
  /\ (Js.get "phone" b = Js.Null ->
      Js.get "phone" (UserController.profile_fields b) = Js.Null)
  /\ (Js.get "name" b = Js.Null ->
      validateUserProfileUpdate req =
        respond (error_json 400 "Name must be a non-empty string"))
  /\ (Js.get "bio" b = Js.Null ->
      exists msg, validateUserProfileUpdate req = respond (error_json 400 msg))
  /\ (Js.get "age" b = Js.Null ->
      exists msg, validateUserProfileUpdate req = respond (error_json 400 msg)).
Proof.
  intros b. unfold validateUserProfileUpdate. simpl body. fold b.
  repeat split.
  - intros Hph.
    rewrite !(get_delete_ne "phone") by discriminate.
    rewrite get_delete_eq, Hph. simpl.
    repeat match goal with
           | |- context [if ?c then respond ?r else _] => destruct c; [reflexivity|]
           end.
    reflexivity.
  - intros -> -> -> ->. reflexivity.
  - intros Hph. rewrite <- Hph. reflexivity.
  - intros ->. reflexivity.
  - intros ->. simpl.
    repeat match goal with
           | |- context [if ?c then respond ?r else _] => destruct c; [eauto|]
           end;
    eauto.
  - intros ->. simpl.
    repeat match goal with
           | |- context [if ?c then respond ?r else _] => destruct c; [eauto|]
           end;
    eauto.
Qed.

End ProfileValidatorFacts.

(** ** The storage client *)
Section GatewayFacts.
Import Exn Prisma.

Lemma Qred_inject_Z z : Qred (inject_Z z) = inject_Z z.
Proof.
  unfold Qred, inject_Z.
  pose proof (Z.ggcd_gcd z 1) as Hg. pose proof (Z.ggcd_correct_divisors z 1) as Hd.
  destruct (Z.ggcd z 1) as [g [a b]]. simpl in *.
  rewrite Z.gcd_1_r in Hg. subst g. destruct Hd as [Ha Hb].
  rewrite Z.mul_1_l in Ha, Hb. subst a b. reflexivity.
Qed.

Lemma arg_int_int z : arg_int (Js.int z) = Given z.
Proof. unfold arg_int, Js.int. rewrite Qred_inject_Z. reflexivity. Qed.

Lemma findById_int z st :
  UserRepository.findById (Js.Finite (inject_Z z)) st
  = (Ok (found (List.find (by_id z) (users st))), st).
Proof.
  unfold UserRepository.findById, findUnique.
  change (Js.get "id" {[ "id" := Js.Num (Js.Finite (inject_Z z)) ]}) with (Js.int z).
  rewrite arg_int_int. reflexivity.
Qed.

Lemma findByEmail_str e st :
  UserRepository.findByEmail (Js.Str e) st
  = (Ok (found (List.find (by_email e) (users st))), st).
Proof. reflexivity. Qed.

Lemma truthy_found o : Js.truthy (found o) = match o with Some _ => true | None => false end.
Proof. destruct o; reflexivity. Qed.

Lemma find_none_existsb {A} (f : A -> bool) l :
  List.find f l = None <-> List.existsb f l = false.
Proof.
  induction l as [|x l IH]; simpl; [tauto|].
  destruct (f x); simpl; [split; discriminate | exact IH].
Qed.

Lemma find_app_new {A} (f : A -> bool) l x :
  f x = true -> exists y, List.find f (l ++ [x]) = Some y /\ f y = true.
Proof.
  intros Hx. induction l as [|a l IH]; simpl.
  - rewrite Hx. eauto.
  - destruct (f a) eqn:Ha; eauto.
Qed.

Lemma find_map_update (z : Z) (g : User -> User) l :
  (forall v, id (g v) = id v) ->
  List.find (by_id z) (List.map (fun v => if by_id z v then g v else v) l)
  = option_map g (List.find (by_id z) l).
Proof.
  intros Hid. induction l as [|a l IH]; simpl; [reflexivity|].
  destruct (by_id z a) eqn:Ha.
  - unfold by_id in *. rewrite Hid, Ha. reflexivity.
  - rewrite Ha. exact IH.
Qed.

End GatewayFacts.

Section RepositoryFacts.
Import Exn Prisma.

Lemma update_int z data st :
  UserRepository.update (Js.Finite (inject_Z z)) data st
  = if negb (valid_columns data) then validation_error st
    else match List.find (by_id z) (users st) with
         | None => not_found st
         | Some u =>
             if email_taken (arg_str (Js.get "email" data)) z (users st)
             then unique_violation st
             else
               (Ok (Js.Obj (to_object (set_columns data u))),
                {| users := List.map (fun v => if by_id z v then set_columns data v else v)
                                     (users st);
                   next_id := next_id st; clock := clock st |})
         end.
Proof.
  unfold UserRepository.update, update.
  change (Js.get "id" {[ "id" := Js.Num (Js.Finite (inject_Z z)) ]}) with (Js.int z).
  rewrite arg_int_int. destruct (negb (valid_columns data)); reflexivity.
Qed.

Lemma delete_int z st :
  UserRepository.delete (Js.Finite (inject_Z z)) st
  = match List.find (by_id z) (users st) with
    | None => not_found st
    | Some u =>
        (Ok (Js.Obj (to_object u)),
         {| users := List.filter (fun v => negb (by_id z v)) (users st);
            next_id := next_id st; clock := clock st |})
    end.
Proof.
  unfold UserRepository.delete, delete.
  change (Js.get "id" {[ "id" := Js.Num (Js.Finite (inject_Z z)) ]}) with (Js.int z).
  rewrite arg_int_int. reflexivity.
Qed.

(** Whatever the repository throws was thrown by the client, before any
    change to the table. *)
Lemma update_throws n data st e st' :
  UserRepository.update n data st = (Throw e, st') ->
  is_storage_exception e = true /\ st' = st.
Proof.
  unfold UserRepository.update, update.
  destruct (arg_int _); try (intros [= <- <-]; auto).
  destruct (negb (valid_columns data)); try (intros [= <- <-]; auto).
  destruct (List.find _ _); try (intros [= <- <-]; auto).
  destruct (email_taken _ _ _); intros [= <- <-]; auto.
Qed.

Lemma delete_throws n st e st' :
  UserRepository.delete n st = (Throw e, st') ->
  is_storage_exception e = true /\ st' = st.
Proof.
  unfold UserRepository.delete, delete.
  destruct (arg_int _); try (intros [= <- <-]; auto).
  destruct (List.find _ _); intros [= <- <-]; auto.
Qed.




End RepositoryFacts.

(** ** The account service *)
Section ServiceFacts.
Import Exn Prisma Contract.
Context {host : Host}.

Lemma create_account_object e h name bio age phone st :
  UserRepository.create
    {[ "email" := Js.Str e; "password" := Js.Str h; "name" := name;
       "bio" := bio; "age" := age; "phone" := phone ]} st
  = if is_invalid (arg_nullable_str name) || is_invalid (arg_nullable_str bio)
       || is_invalid (arg_nullable_int age) || is_invalid (arg_nullable_str phone)
    then validation_error st
    else if List.existsb (by_email e) (users st) then unique_violation st
    else (Ok (Js.Obj (to_object (new_row st e h name bio age phone))),
          {| users := users st ++ [new_row st e h name bio age phone];
             next_id := next_id st + 1; clock := clock st |}).
Proof.
  unfold UserRepository.create, create.
  change (Js.get "email" _) with (Js.Str e).
  change (Js.get "password" _) with (Js.Str h).
  change (Js.get "name" _) with name.
  change (Js.get "bio" _) with bio.
  change (Js.get "age" _) with age.
  change (Js.get "phone" _) with phone.
  simpl. destruct (_ || _); reflexivity.
Qed.

Lemma createUser_str e pw name bio age phone salt st :
  UserService.createUser (Js.Str e) pw name bio age phone salt st
  = match List.find (by_email e) (users st) with
    | Some _ => (Throw duplicate_account, st)
    | None =>
        bind (Bcrypt.hash pw 10 salt)
          (fun hashedPassword =>
             UserRepository.create
               {[ "email" := Js.Str e; "password" := Js.Str hashedPassword;
                  "name" := name; "bio" := bio; "age" := age; "phone" := phone ]}) st
    end.
Proof.
  unfold UserService.createUser, bind at 1.
  rewrite findByEmail_str, truthy_found. destruct (List.find _ _); reflexivity.
Qed.

Lemma optional_string_valid v : Js.optional_string v -> is_invalid (arg_nullable_str v) = false.
Proof. intros [-> | [s ->]]; reflexivity. Qed.

Lemma optional_int_valid v : Js.optional_int v -> is_invalid (arg_nullable_int v) = false.
Proof.
  intros [-> | [z ->]]; [reflexivity|].
  unfold arg_nullable_int. change (Js.Num (Js.Finite (inject_Z z))) with (Js.int z).
  rewrite arg_int_int. reflexivity.
Qed.

(** C3.  On a table without an account for [e], registering [e] succeeds,
    and registering [e] again on the resulting table, with any password and
    profile, throws "User with this email already exists".  On any table the
    service throws that error exactly when an account with the email is
    already there. *)
Theorem createUser_twice_same_email (st : db) (e p : string)
  (name bio age phone : Js.value) (salt : string) :
  List.find (by_email e) (users st) = None ->
  Js.optional_string name -> Js.optional_string bio ->
  Js.optional_int age -> Js.optional_string phone ->
  exists user st1,
    UserService.createUser (Js.Str e) (Js.Str p) name bio age phone salt st = (Ok user, st1)
    /\ (forall p' name' bio' age' phone' salt',
          UserService.createUser (Js.Str e) p' name' bio' age' phone' salt' st1
          = (Throw (Error "User with this email already exists"), st1))
    /\ (forall st0 p' name' bio' age' phone' salt' st0',
          UserService.createUser (Js.Str e) p' name' bio' age' phone' salt' st0
          = (Throw (Error "User with this email already exists"), st0')
          <-> List.find (by_email e) (users st0) <> None /\ st0' = st0).
Proof.
  intros Hnew Hn Hb Ha Hp.
  rewrite createUser_str, Hnew. unfold bind; simpl.
  rewrite create_account_object.
  rewrite (optional_string_valid _ Hn), (optional_string_valid _ Hb),
    (optional_int_valid _ Ha), (optional_string_valid _ Hp). simpl.
  apply find_none_existsb in Hnew. rewrite Hnew.
  eexists _, _. split; [reflexivity|]. split.
  - intros p' name' bio' age' phone' salt'. rewrite createUser_str. simpl.
    destruct (find_app_new (by_email e) (users st)
                (new_row st e (bcrypt_hash p 10 salt) name bio age phone))
      as (y & -> & _); [apply String.eqb_refl | reflexivity].
  - intros st0 p' name' bio' age' phone' salt' st0'. rewrite createUser_str.
    destruct (List.find (by_email e) (users st0)) eqn:Hf.
    + split; [intros [= <-]; split; [congruence | reflexivity] | intros [_ Heq]; rewrite Heq; reflexivity].
    + split; [|intros [[] _]; reflexivity].
      unfold bind. destruct p'; simpl; try discriminate.
      rewrite create_account_object.
      destruct (_ || _); [discriminate|].
      destruct (List.existsb _ (users st0)); discriminate.
Qed.

(** C2.  For an email that is not registered yet, the service calls the
    repository's [create] with the bcrypt hash of the password at cost 10 in
    the [password] property, and the object it gets back and the row it adds
    carry that hash.  The hash is not the plaintext, bcrypt being taken to
    return a string other than its input. *)
Theorem createUser_stores_bcrypt_hash
  (Hhash : forall data salt, bcrypt_hash data 10 salt <> data)
  (st : db) (e p : string) (name bio age phone : Js.value) (salt : string) :
  List.find (by_email e) (users st) = None ->
  let hashed := bcrypt_hash p 10 salt in
  UserService.createUser (Js.Str e) (Js.Str p) name bio age phone salt st
  = UserRepository.create
      {[ "email" := Js.Str e; "password" := Js.Str hashed; "name" := name;
         "bio" := bio; "age" := age; "phone" := phone ]} st
  /\ Js.Str hashed <> Js.Str p
  /\ (forall user st1,
        UserService.createUser (Js.Str e) (Js.Str p) name bio age phone salt st
        = (Ok user, st1) ->
        Js.get "password" (UserService.props user) = Js.Str hashed
        /\ exists u, users st1 = users st ++ [u] /\ email u = e
                     /\ password u = hashed /\ password u <> p).
Proof.
  intros Hnew hashed.
  assert (Hcall : UserService.createUser (Js.Str e) (Js.Str p) name bio age phone salt st
                  = UserRepository.create
                      {[ "email" := Js.Str e; "password" := Js.Str hashed; "name" := name;
                         "bio" := bio; "age" := age; "phone" := phone ]} st).
  { rewrite createUser_str, Hnew. reflexivity. }
  split; [exact Hcall|]. split.
  - intros [= H]. exact (Hhash p salt H).
  - intros user st1. rewrite Hcall, create_account_object.
    destruct (_ || _); [discriminate|].
    destruct (List.existsb _ _); [discriminate|].
    intros [= <- <-]. split; [reflexivity|].
    eexists. split; [reflexivity|]. simpl. repeat split. apply Hhash.
Qed.

Lemma get_password_row u : Js.get "password" (to_object u) = Js.Str (password u).
Proof. reflexivity. Qed.

Lemma authenticateUser_str e p st :
  UserService.authenticateUser (Js.Str e) (Js.Str p) st
  = match List.find (by_email e) (users st) with
    | None => (Throw invalid_credentials, st)
    | Some u =>
        if bcrypt_compare p (password u)
        then (Ok (Js.Obj (Js.omit "password" (to_object u))), st)
        else (Throw invalid_credentials, st)
    end.
Proof.
  unfold UserService.authenticateUser, bind at 1.
  rewrite findByEmail_str, truthy_found.
  destruct (List.find _ _) as [u|]; [|reflexivity].
  unfold bind.
  change (Js.get "password" (UserService.props (found (Some u))))
    with (Js.Str (password u)).
  simpl.
  destruct (bcrypt_compare p (password u)); reflexivity.
Qed.

(** C4.  [authenticateUser] throws the same "Invalid credentials" error,
    and leaves the table alone, both when no account has the email and when
    the password does not verify against the stored hash.  When it verifies,
    the result is the account object without its [password] property and
    with every other property. *)
Theorem authenticateUser_single_failure (st : db) (e p : string) :
  (List.find (by_email e) (users st) = None ->
   UserService.authenticateUser (Js.Str e) (Js.Str p) st
   = (Throw (Error "Invalid credentials"), st))
  /\ (forall u, List.find (by_email e) (users st) = Some u ->
        bcrypt_compare p (password u) = false ->
        UserService.authenticateUser (Js.Str e) (Js.Str p) st
        = (Throw (Error "Invalid credentials"), st))
  /\ (forall u, List.find (by_email e) (users st) = Some u ->
        bcrypt_compare p (password u) = true ->
        exists account,
          UserService.authenticateUser (Js.Str e) (Js.Str p) st
          = (Ok (Js.Obj account), st)
          /\ account !! "password" = None
          /\ (forall k, k <> "password" -> account !! k = to_object u !! k)).
Proof.
  rewrite authenticateUser_str. repeat split.
  - intros ->. reflexivity.
  - intros u -> ->. reflexivity.
  - intros u -> ->. eexists. split; [reflexivity|]. split.
    + apply lookup_delete_eq.
    + intros k Hk. apply lookup_delete_ne. congruence.
Qed.

Lemma updateUserProfile_int z updates st :
  UserService.updateUserProfile (Js.Finite (inject_Z z)) updates st
  = match List.find (by_id z) (users st) with
    | None => (Throw (Error "User not found"), st)
    | Some _ =>
        if negb (Js.is_undefined (Js.get "age" updates))
           && (Conv.lt (Js.get "age" updates) (Js.Finite 0)
               || Conv.gt (Js.get "age" updates) (Js.Finite 150))
        then (Throw (Error "Invalid age"), st)
        else UserRepository.update (Js.Finite (inject_Z z)) updates st
    end.
Proof.
  unfold UserService.updateUserProfile, bind.
  rewrite findById_int, truthy_found.
  destruct (List.find _ _); simpl; [|reflexivity].
  destruct (_ && _); reflexivity.
Qed.

Lemma getUserProfile_int z st :
  UserService.getUserProfile (Js.Finite (inject_Z z)) st
  = match List.find (by_id z) (users st) with
    | None => (Throw (Error "User not found"), st)
    | Some u => (Ok (Js.Obj (Js.omit "password" (to_object u))), st)
    end.
Proof.
  unfold UserService.getUserProfile, bind.
  rewrite findById_int, truthy_found.
  destruct (List.find _ _); reflexivity.
Qed.

Lemma profile_fields_get b :
  Js.get "name" (UserController.profile_fields b) = Js.get "name" b
  /\ Js.get "bio" (UserController.profile_fields b) = Js.get "bio" b
  /\ Js.get "age" (UserController.profile_fields b) = Js.get "age" b
  /\ Js.get "phone" (UserController.profile_fields b) = Js.get "phone" b
  /\ Js.get "email" (UserController.profile_fields b) = Js.Undefined
  /\ Js.get "password" (UserController.profile_fields b) = Js.Undefined.
Proof. repeat split; reflexivity. Qed.


Lemma age_in_range_passes v :
  age_in_range v ->
  negb (Js.is_undefined v)
  && (Conv.lt v (Js.Finite 0) || Conv.gt v (Js.Finite 150)) = false
  /\ is_invalid (arg_nullable_int v) = false.
Proof.
  intros [-> | (a & -> & Ha)]; [split; reflexivity|].
  split.
  - unfold Conv.lt, Conv.gt, Js.int.
    cbn [Conv.ToNumber Js.num_ltb Js.is_undefined negb andb].
    assert (H0 : Qle_bool 0 (inject_Z a) = true)
      by (apply Qle_bool_iff; change 0%Q with (inject_Z 0); rewrite <- Zle_Qle; lia).
    assert (H1 : Qle_bool (inject_Z a) 150 = true)
      by (apply Qle_bool_iff; change 150%Q with (inject_Z 150); rewrite <- Zle_Qle; lia).
    rewrite H0, H1. reflexivity.
  - apply optional_int_valid. right. eauto.
Qed.

Lemma optional_nullable_string_valid v :
  optional_nullable_string v -> is_invalid (arg_nullable_str v) = false.
Proof. intros [-> | H]; [reflexivity | apply optional_string_valid; exact H]. Qed.


End ServiceFacts.

(** ** Responses of the pipeline *)
Section PipelineFacts.
Import Exn Prisma Contract Http.
Context {host : Host}.

Lemma public_account_no_password st account :
  public_account st account -> account !! "password" = None.
Proof. intros (u & _ & ->). apply lookup_delete_eq. Qed.

Lemma findUnique_ok w st v st' :
  findUnique w st = (Ok v, st') ->
  st' = st /\ (v = Js.Null \/ exists u, In u (users st) /\ v = Js.Obj (to_object u)).
Proof.
  unfold findUnique.
  destruct (arg_int (Js.get "id" w)), (arg_str (Js.get "email" w));
    try discriminate; intros [= <- <-];
    (split; [reflexivity|]);
    match goal with |- context [List.find ?f ?l] => destruct (List.find f l) eqn:Hf end;
    simpl; auto; right; eexists; split; eauto using List.find_some;
    apply List.find_some in Hf; tauto.
Qed.

Lemma create_ok data st v st' :
  create data st = (Ok v, st') ->
  exists u, In u (users st') /\ v = Js.Obj (to_object u).
Proof.
  unfold create.
  destruct (arg_str (Js.get "email" data)); try discriminate.
  destruct (arg_str (Js.get "password" data)); try discriminate.
  destruct (_ || _); [discriminate|].
  destruct (List.existsb _ _); [discriminate|].
  intros [= <- <-]. eexists. split; [|reflexivity].
  simpl. apply in_or_app. right. left. reflexivity.
Qed.

Lemma update_ok w data st v st' :
  update w data st = (Ok v, st') ->
  exists u, In u (users st') /\ v = Js.Obj (to_object u).
Proof.
  unfold update.
  destruct (arg_int _) as [|z|]; try discriminate.
  destruct (negb _); [discriminate|].
  destruct (List.find _ _) as [u|] eqn:Hf; [|discriminate].
  destruct (email_taken _ _ _); [discriminate|].
  intros [= <- <-]. exists (set_columns data u). split; [|reflexivity].
  simpl. apply List.find_some in Hf as [Hin Hid].
  apply List.in_map_iff. exists u. rewrite Hid. auto.
Qed.

Lemma service_createUser_ok email password name bio age phone salt st v st' :
  UserService.createUser email password name bio age phone salt st = (Ok v, st') ->
  exists u, In u (users st') /\ v = Js.Obj (to_object u).
Proof.
  unfold UserService.createUser, bind.
  destruct (UserRepository.findByEmail email st) as [[x|e] st1]; [|discriminate].
  destruct (Js.truthy x); [discriminate|].
  destruct (Bcrypt.hash password 10 salt st1) as [[h|e] st2]; [|discriminate].
  apply create_ok.
Qed.

Lemma service_updateUserProfile_ok userId updates st v st' :
  UserService.updateUserProfile userId updates st = (Ok v, st') ->
  exists u, In u (users st') /\ v = Js.Obj (to_object u).
Proof.
  unfold UserService.updateUserProfile, bind.
  destruct (UserRepository.findById userId st) as [[x|e] st1]; [|discriminate].
  destruct (negb (Js.truthy x)); [discriminate|].
  destruct (_ && _); [discriminate|].
  apply update_ok.
Qed.

Lemma service_getUserProfile_ok userId st v st' :
  UserService.getUserProfile userId st = (Ok v, st') ->
  exists account, v = Js.Obj account /\ public_account st' account.
Proof.
  unfold UserService.getUserProfile, bind.
  destruct (UserRepository.findById userId st) as [[x|e] st1] eqn:Hf; [|discriminate].
  apply findUnique_ok in Hf as [-> [-> | (u & Hin & ->)]]; [discriminate|].
  intros [= <- <-]. eexists. split; [reflexivity|]. exists u. auto.
Qed.

Lemma controller_createUser req salt st :
  exists res st',
    UserController.createUser req salt st = (Ok res, st')
    /\ (is_error res \/ account_under_user st' 201 res).
Proof.
  unfold UserController.createUser, try_catch, bind.
  destruct (UserService.createUser _ _ _ _ _ _ _ _) as [[v|e] st1] eqn:Hs.
  - apply service_createUser_ok in Hs as (u & Hin & ->).
    eexists _, _. split; [reflexivity|]. right.
    eexists _, _. split; [reflexivity|]. split; [exists u; auto|].
    apply lookup_delete_eq.
  - destruct (String.eqb _ _); eexists _, _; (split; [reflexivity|]); left;
      eexists _, _; (split; [reflexivity | lia]).
Qed.

Lemma controller_getUserProfile req st :
  exists res st',
    UserController.getUserProfile req st = (Ok res, st')
    /\ (is_error res \/ account_as_body st' 200 res).
Proof.
  unfold UserController.getUserProfile, try_catch, bind.
  destruct (UserService.getUserProfile _ _) as [[v|e] st1] eqn:Hs.
  - apply service_getUserProfile_ok in Hs as (account & -> & Hacc).
    eexists _, _. split; [reflexivity|]. right.
    exists account. split; [reflexivity|]. split; [exact Hacc|].
    eapply public_account_no_password; eauto.
  - destruct (String.eqb _ _); eexists _, _; (split; [reflexivity|]); left;
      eexists _, _; (split; [reflexivity | lia]).
Qed.

Lemma controller_updateUserProfile req st :
  exists res st',
    UserController.updateUserProfile req st = (Ok res, st')
    /\ (is_error res \/ account_under_user st' 200 res).
Proof.
  unfold UserController.updateUserProfile, try_catch, bind.
  destruct (UserService.updateUserProfile _ _ _) as [[v|e] st1] eqn:Hs.
  - apply service_updateUserProfile_ok in Hs as (u & Hin & ->).
    eexists _, _. split; [reflexivity|]. right.
    eexists _, _. split; [reflexivity|]. split; [exists u; auto|].
    apply lookup_delete_eq.
  - destruct (String.eqb _ "User not found"); [|destruct (String.eqb _ _)];
      eexists _, _; (split; [reflexivity|]); left;
      eexists _, _; (split; [reflexivity | lia]).
Qed.

Ltac rejects :=
  intros req res; cbv beta delta [Validation.validateEmail Validation.validatePassword
    Validation.validateUserProfileUpdate Auth.requireAuth Auth.requireOwnershipOrAdmin
    Auth.requireAdmin] zeta;
  repeat match goal with
         | |- context [if ?c then _ else _] => destruct c
         end;
  intros [= <-]; eexists _, _; (split; [reflexivity | lia]).

Lemma validateEmail_rejects : rejects_with_error Validation.validateEmail.
Proof. rejects. Qed.

Lemma validatePassword_rejects : rejects_with_error Validation.validatePassword.
Proof. rejects. Qed.

Lemma validateUserProfileUpdate_rejects :
  rejects_with_error Validation.validateUserProfileUpdate.
Proof. rejects. Qed.

Lemma requireAuth_rejects : rejects_with_error Auth.requireAuth.
Proof. rejects. Qed.

Lemma requireOwnershipOrAdmin_rejects : rejects_with_error Auth.requireOwnershipOrAdmin.
Proof. rejects. Qed.

Lemma chain_responds mws handler (Q : db -> Response -> Prop) :
  Forall rejects_with_error mws ->
  (forall req st, exists res st',
      handler req st = (Ok res, st') /\ (is_error res \/ Q st' res)) ->
  forall req st, exists res st',
      Routes.chain mws handler req st = (Ok res, st') /\ (is_error res \/ Q st' res).
Proof.
  intros Hmws Hh. induction Hmws as [|mw mws Hmw _ IH]; intros req st; simpl.
  - apply Hh.
  - destruct (mw req) as [req'|res] eqn:E; [apply IH|].
    exists res, st. split; [reflexivity|]. left. eapply Hmw; eauto.
Qed.

(** C1.  The three routes always answer.  The answer is either an error (a
    status from 400 on and a body [{ error }]) or the success response, and
    the account in a success response (under [user] for POST /users and
    PUT /users/:id, the body itself for GET /users/:id) is the image of a
    stored row without the [password] property. *)
Theorem responses_carry_no_password (st : db) (req : Request) (salt : string) :
  (exists res st',
     Routes.post_users salt req st = (Ok res, st')
     /\ (is_error res \/ account_under_user st' 201 res))
  /\ (exists res st',
        Routes.get_user req st = (Ok res, st')
        /\ (is_error res \/ account_as_body st' 200 res))
  /\ (exists res st',
        Routes.put_user req st = (Ok res, st')
        /\ (is_error res \/ account_under_user st' 200 res)).
Proof.
  split; [|split].
  - apply (chain_responds _ _ (fun st' => account_under_user st' 201)).
    + repeat constructor; [apply validateEmail_rejects | apply validatePassword_rejects].
    + intros. apply controller_createUser.
  - apply (chain_responds _ _ (fun st' => account_as_body st' 200)).
    + repeat constructor; [apply requireAuth_rejects | apply requireOwnershipOrAdmin_rejects].
    + intros. apply controller_getUserProfile.
  - apply (chain_responds _ _ (fun st' => account_under_user st' 200)).
    + repeat constructor; [apply requireAuth_rejects | apply requireOwnershipOrAdmin_rejects
                          | apply validateUserProfileUpdate_rejects].
    + intros. apply controller_updateUserProfile.
Qed.

End PipelineFacts.

(** ** The properties at concrete inputs *)
Section Witnesses.
Import Exn Prisma Http Contract.

Lemma length_app (s t : string) :
  String.length (s +:+ t) = (String.length s + String.length t)%nat.
Proof. induction s as [|c s IH]; [reflexivity|]. simpl. f_equal. exact IH. Qed.

(** The hash of the example host is longer than its input. *)
Lemma example_hash_ne data salt : bcrypt_hash (Host := Example.host) data 10 salt <> data.
Proof.
  simpl. intros H. apply (f_equal String.length) in H.
  rewrite !length_app in H. simpl in H. lia.
Qed.

Lemma createUser_stores_bcrypt_hash_witness :
  List.find (by_email "x@y.com") (users Example.db_empty) = None
  /\ exists user,
       UserService.createUser (host := Example.host)
         (Js.Str "x@y.com") (Js.Str "abc12345")
         Js.Undefined Js.Undefined Js.Undefined Js.Undefined "salt" Example.db_empty
       = (Ok user, {| users := [Example.alice]; next_id := 2; clock := 0 |})
       /\ Js.get "password" (UserService.props user) = Js.Str "$2b$10$saltabc12345"
       /\ Js.Str "$2b$10$saltabc12345" <> Js.Str "abc12345".
Proof.
  split; [reflexivity|].
  destruct (createUser_stores_bcrypt_hash (host := Example.host) example_hash_ne
              Example.db_empty "x@y.com" "abc12345"
              Js.Undefined Js.Undefined Js.Undefined Js.Undefined "salt" eq_refl)
    as (Hcall & Hne & Hrow).
  exists (Js.Obj (to_object Example.alice)).
  split; [rewrite Hcall; reflexivity|].
  split; [reflexivity | exact Hne].
Defined.

Lemma createUser_twice_same_email_witness :
  exists user st1,
    UserService.createUser (host := Example.host)
      (Js.Str "x@y.com") (Js.Str "abc12345")
      Js.Undefined Js.Undefined Js.Undefined Js.Undefined "salt" Example.db_empty
    = (Ok user, st1)
    /\ UserService.createUser (host := Example.host)
         (Js.Str "x@y.com") (Js.Str "other123")
         (Js.Str "Bob") Js.Undefined Js.Undefined Js.Undefined "pepper" st1
       = (Throw (Error "User with this email already exists"), st1).
Proof.
  destruct (createUser_twice_same_email (host := Example.host)
              Example.db_empty "x@y.com" "abc12345"
              Js.Undefined Js.Undefined Js.Undefined Js.Undefined "salt" eq_refl)
    as (user & st1 & Hfirst & Hsecond & _).
  - left; reflexivity.
  - left; reflexivity.
  - left; reflexivity.
  - left; reflexivity.
  - exists user, st1. split; [exact Hfirst | apply Hsecond].
Defined.

Lemma authenticateUser_single_failure_witness :
  UserService.authenticateUser (host := Example.host)
    (Js.Str "nobody@y.com") (Js.Str "abc12345") Example.db_alice
  = (Throw (Error "Invalid credentials"), Example.db_alice)
  /\ UserService.authenticateUser (host := Example.host)
       (Js.Str "x@y.com") (Js.Str "wrong123") Example.db_alice
     = (Throw (Error "Invalid credentials"), Example.db_alice)
  /\ exists account,
       UserService.authenticateUser (host := Example.host)
         (Js.Str "x@y.com") (Js.Str "abc12345") Example.db_alice
       = (Ok (Js.Obj account), Example.db_alice)
       /\ account !! "password" = None
       /\ account !! "email" = Some (Js.Str "x@y.com").
Proof.
  split; [|split].
  - apply (authenticateUser_single_failure (host := Example.host)). reflexivity.
  - apply (proj1 (proj2 (authenticateUser_single_failure (host := Example.host)
                           Example.db_alice "x@y.com" "wrong123")) Example.alice);
      reflexivity.
  - destruct (proj2 (proj2 (authenticateUser_single_failure (host := Example.host)
                              Example.db_alice "x@y.com" "abc12345")) Example.alice)
      as (account & Hok & Hpw & Hrest); [reflexivity | reflexivity |].
    exists account. split; [exact Hok|]. split; [exact Hpw|].
    rewrite Hrest by discriminate. reflexivity.
Defined.

Lemma requireOwnershipOrAdmin_decides_witness :
  Auth.requireOwnershipOrAdmin (Example.identified (Js.int 5) Js.Undefined "5")
  = next (Example.identified (Js.int 5) Js.Undefined "5")
  /\ Auth.requireOwnershipOrAdmin (Example.identified (Js.int 5) (Js.Str "user") "7")
     = respond (error_json 403 "Forbidden: Cannot access other user resources")
  /\ Auth.requireOwnershipOrAdmin (Example.identified (Js.int 5) (Js.Str "admin") "7")
     = next (Example.identified (Js.int 5) (Js.Str "admin") "7")
  /\ Auth.requireOwnershipOrAdmin (Example.identified (Js.int 5) (Js.Str "admin") "abc")
     = respond (error_json 400 "Invalid user ID").
Proof.
  split; [|split; [|split]].
  - pose proof (requireOwnershipOrAdmin_decides
                  (Example.identified (Js.int 5) Js.Undefined "5")) as H.
    cbv zeta in H. destruct H as (_ & _ & _ & _ & H & _). apply H; reflexivity.
  - pose proof (requireOwnershipOrAdmin_decides
                  (Example.identified (Js.int 5) (Js.Str "user") "7")) as H.
    cbv zeta in H. destruct H as (_ & _ & _ & _ & _ & H & _).
    apply H; [reflexivity | reflexivity | discriminate].
  - pose proof (requireOwnershipOrAdmin_decides
                  (Example.identified (Js.int 5) (Js.Str "admin") "7")) as H.
    cbv zeta in H. destruct H as (_ & _ & _ & _ & _ & _ & H & _). apply H; reflexivity.
  - pose proof (requireOwnershipOrAdmin_decides
                  (Example.identified (Js.int 5) (Js.Str "admin") "abc")) as H.
    cbv zeta in H. destruct H as (H & _). apply H; reflexivity.
Defined.


Lemma validatePassword_accepts_iff_witness :
  Validation.validatePassword (Example.request ∅ "" {[ "password" := Js.Str "short1" ]})
  = respond (error_json 400 "Password must be at least 8 characters")
  /\ Validation.validatePassword
       (Example.request ∅ "" {[ "password" := Js.Str "alllettersnodigit" ]})
     = respond (error_json 400 "Password must contain at least one letter and one number")
  /\ Validation.validatePassword
       (Example.request ∅ "" {[ "password" := Js.Str "abc12345" ]})
     = next (Example.request ∅ "" {[ "password" := Js.Str "abc12345" ]})
  /\ Validation.validatePassword (Example.request ∅ "" ∅)
     = respond (error_json 400 "Password is required").
Proof.
  split; [|split; [|split]].
  - pose proof (validatePassword_accepts_iff
                  (Example.request ∅ "" {[ "password" := Js.Str "short1" ]})) as H.
    cbv zeta in H. destruct H as (_ & _ & _ & _ & H & _). apply H. reflexivity.
  - pose proof (validatePassword_accepts_iff
                  (Example.request ∅ "" {[ "password" := Js.Str "alllettersnodigit" ]})) as H.
    cbv zeta in H. destruct H as (_ & _ & _ & _ & _ & H & _). apply H. reflexivity.
  - pose proof (validatePassword_accepts_iff
                  (Example.request ∅ "" {[ "password" := Js.Str "abc12345" ]})) as H.
    cbv zeta in H. destruct H as (_ & _ & _ & _ & _ & _ & H). apply H. reflexivity.
  - pose proof (validatePassword_accepts_iff (Example.request ∅ "" ∅)) as H.
    cbv zeta in H. destruct H as (_ & H & _). apply H. reflexivity.
Defined.

Lemma requireAuth_accepts_any_nonempty_id_witness :
  exists req',
    Auth.requireAuth
      (Example.request {[ "x-user-id" := "abc"; "x-user-role" := "admin" ]} "1" ∅)
    = next req'
    /\ userId req' = Js.Num Js.NaN
    /\ Auth.requireOwnershipOrAdmin req' = next req'.
Proof.
  destruct (requireAuth_accepts_any_nonempty_id
              (Example.request {[ "x-user-id" := "abc"; "x-user-role" := "admin" ]} "1" ∅)
              "abc")
    as (req' & Hnext & Hid & _ & _ & _ & Hnan); [reflexivity | discriminate |].
  exists req'. split; [exact Hnext|]. split; [exact Hid|].
  apply Hnan; [reflexivity|]. split; [reflexivity | discriminate].
Defined.

Lemma validateUserProfileUpdate_null_asymmetry_witness :
  Validation.validateUserProfileUpdate (Example.request ∅ "1" {[ "phone" := Js.Null ]})
  = next (Example.request ∅ "1" {[ "phone" := Js.Null ]})
  /\ Validation.validateUserProfileUpdate (Example.request ∅ "1" {[ "name" := Js.Null ]})
     = respond (error_json 400 "Name must be a non-empty string")
  /\ (exists msg,
        Validation.validateUserProfileUpdate (Example.request ∅ "1" {[ "bio" := Js.Null ]})
        = respond (error_json 400 msg))
  /\ (exists msg,
        Validation.validateUserProfileUpdate (Example.request ∅ "1" {[ "age" := Js.Null ]})
        = respond (error_json 400 msg)).
Proof.
  split; [|split; [|split]].
  - pose proof (validateUserProfileUpdate_null_asymmetry
                  (Example.request ∅ "1" {[ "phone" := Js.Null ]})) as H.
    cbv zeta in H. destruct H as (_ & H & _). apply H; reflexivity.
  - pose proof (validateUserProfileUpdate_null_asymmetry
                  (Example.request ∅ "1" {[ "name" := Js.Null ]})) as H.
    cbv zeta in H. destruct H as (_ & _ & _ & H & _). apply H; reflexivity.
  - pose proof (validateUserProfileUpdate_null_asymmetry
                  (Example.request ∅ "1" {[ "bio" := Js.Null ]})) as H.
    cbv zeta in H. destruct H as (_ & _ & _ & _ & H & _). apply H; reflexivity.
  - pose proof (validateUserProfileUpdate_null_asymmetry
                  (Example.request ∅ "1" {[ "age" := Js.Null ]})) as H.
    cbv zeta in H. destruct H as (_ & _ & _ & _ & _ & H). apply H; reflexivity.
Defined.

(** The "bad practice" service stores the password as it came: what C2
    says of [createUser] is not a property of the gateway. *)
Lemma badCreateUser_stores_plaintext (st : db) (e p : string) :
  List.existsb (by_email e) (users st) = false ->
  exists u st1,
    UserService.badCreateUser (Js.Str e) (Js.Str p) Js.Undefined st
    = (Ok (Js.Obj (to_object u)), st1)
    /\ users st1 = users st ++ [u] /\ password u = p.
Proof.
  intros Hnew. unfold UserService.badCreateUser, UserRepository.create, create.
  change (Js.get "email" _) with (Js.Str e).
  change (Js.get "password" _) with (Js.Str p).
  change (Js.get "name" _) with Js.Undefined.
  change (Js.get "bio" _) with Js.Undefined.
  change (Js.get "age" _) with Js.Undefined.
  change (Js.get "phone" _) with Js.Undefined.
  simpl. rewrite Hnew. eexists _, _. split; [reflexivity|]. split; reflexivity.
Qed.

(** POST /users with a fresh email answers 201 and stores the hash; the same
    request again answers 409 and changes nothing. *)
Example post_users_twice :
  match Routes.post_users (host := Example.host) "salt"
          (Example.request ∅ ""
             {[ "email" := Js.Str "x@y.com"; "password" := Js.Str "abc12345" ]})
          Example.db_empty with
  | (Ok res1, st1) =>
      status res1 = 201 /\ st1 = Example.db_alice
      /\ Js.get "password" (UserService.props (Js.get "user" (UserService.props (json res1))))
         = Js.Undefined
      /\ match Routes.post_users (host := Example.host) "pepper"
                 (Example.request ∅ ""
                    {[ "email" := Js.Str "x@y.com"; "password" := Js.Str "abc12345" ]})
                 st1 with
         | (Ok res2, st2) =>
             res2 = error_json 409 "User with this email already exists" /\ st2 = st1
         | _ => False
         end
  | _ => False
  end.
Proof. vm_compute. repeat split; reflexivity. Qed.

(** PUT /users/1 by user 1: an age of 200 is refused by the validator, an age
    of 30 is stored, and GET /users/1 then shows it. *)
Example put_then_get_user :
  match Routes.put_user (host := Example.host)
          (Example.request {[ "x-user-id" := "1" ]} "1" {[ "age" := Js.int 200 ]})
          Example.db_alice with
  | (Ok res, st) =>
      res = error_json 400 "Age must be a number between 0 and 150"
      /\ st = Example.db_alice
  | _ => False
  end
  /\ match Routes.put_user (host := Example.host)
             (Example.request {[ "x-user-id" := "1" ]} "1" {[ "age" := Js.int 30 ]})
             Example.db_alice with
     | (Ok res, st) =>
         status res = 200
         /\ match Routes.get_user (Example.request {[ "x-user-id" := "1" ]} "1" ∅) st with
            | (Ok res', _) =>
                status res' = 200
                /\ Js.get "age" (UserService.props (json res')) = Js.int 30
                /\ Js.get "password" (UserService.props (json res')) = Js.Undefined
            | _ => False
            end
     | _ => False
     end.
Proof. vm_compute. repeat split; reflexivity. Qed.

(** GET /users/1 by user 2 without the admin role is forbidden. *)
Example get_other_user_forbidden :
  Routes.get_user (Example.request {[ "x-user-id" := "2" ]} "1" ∅) Example.db_alice
  = (Ok (error_json 403 "Forbidden: Cannot access other user resources"),
     Example.db_alice).
Proof. vm_compute. reflexivity. Qed.

End Witnesses.

(** ** The validators in full *)
Section ValidatorShapes.
Import Http Validation Regex Shapes.

Lemma all_chars_app p s t : all_chars p (s +:+ t) = all_chars p s && all_chars p t.
Proof.
  induction s as [|c s IH]; [reflexivity|].
  rewrite RegexFacts.app_cons. simpl. rewrite IH. apply andb_assoc.
Qed.

Lemma lang_star_class p s : lang (Star (Class p)) s <-> all_chars p s = true.
Proof.
  split.
  - remember (Star (Class p)) as r eqn:E. induction 1; try discriminate.
    + reflexivity.
    + injection E as ->. apply RegexFacts.lang_class_inv in H as (c & -> & Hc).
      rewrite all_chars_app. simpl. rewrite Hc. simpl. auto.
  - induction s as [|c s IH]; simpl; [constructor|].
    intros [Hc Hs]%andb_true_iff.
    change (String c s) with (String c "" +:+ s).
    constructor; [constructor; exact Hc | auto].
Qed.

Lemma lang_plus_class p s :
  lang (Plus (Class p)) s <-> s <> "" /\ all_chars p s = true.
Proof.
  unfold Plus. split.
  - intros (s1 & s2 & -> & (c & -> & Hc)%RegexFacts.lang_class_inv & H2%lang_star_class)%RegexFacts.lang_cat_inv.
    split; [discriminate|]. rewrite all_chars_app. simpl. rewrite Hc, H2. reflexivity.
  - intros [Hne Hall]. destruct s as [|c s]; [congruence|].
    simpl in Hall. apply andb_true_iff in Hall as [Hc Hs].
    change (String c s) with (String c "" +:+ s).
    constructor; [constructor; exact Hc | apply lang_star_class; exact Hs].
Qed.

Lemma lang_chr c s : lang (Chr c) s <-> s = String c "".
Proof.
  unfold Chr. split.
  - intros (d & -> & Hd%Ascii.eqb_eq)%RegexFacts.lang_class_inv. congruence.
  - intros ->. constructor. apply Ascii.eqb_refl.
Qed.

Lemma emailRegex_shape s : test_anchored emailRegex s = true <-> email_shape s.
Proof.
  unfold test_anchored, emailRegex, email_shape, email_part.
  rewrite RegexFacts.matches_lang. split.
  - intros (a & r1 & -> & Ha%lang_plus_class & H1)%RegexFacts.lang_cat_inv.
    apply RegexFacts.lang_cat_inv in H1 as (x & r2 & -> & ->%lang_chr & H2).
    apply RegexFacts.lang_cat_inv in H2 as (b & r3 & -> & Hb%lang_plus_class & H3).
    apply RegexFacts.lang_cat_inv in H3 as (y & c & -> & ->%lang_chr & Hc%lang_plus_class).
    exists a, b, c. auto.
  - intros (a & b & c & -> & Ha & Hb & Hc).
    constructor; [apply lang_plus_class; exact Ha|].
    change ("@" +:+ b +:+ "." +:+ c) with (String "@" "" +:+ (b +:+ "." +:+ c)).
    constructor; [apply lang_chr; reflexivity|].
    constructor; [apply lang_plus_class; exact Hb|].
    change ("." +:+ c) with (String "." "" +:+ c).
    constructor; [apply lang_chr; reflexivity | apply lang_plus_class; exact Hc].
Qed.

Lemma js_length_app s t : Js.length (s +:+ t) = Js.length s + Js.length t.
Proof.
  unfold Js.length. induction s as [|c s IH]; [reflexivity|].
  rewrite RegexFacts.app_cons. simpl String.length. lia.
Qed.

Lemma lang_repeat_class p n s :
  lang (Repeat n (Class p)) s <-> Js.length s = Z.of_nat n /\ all_chars p s = true.
Proof.
  revert s. induction n as [|n IH]; intros s; simpl Repeat.
  - split.
    + intros ->%RegexFacts.lang_eps_inv. auto.
    + intros [Hl _]. destruct s; [constructor | unfold Js.length in Hl; simpl in Hl; lia].
  - split.
    + intros (s1 & s2 & -> & (c & -> & Hc)%RegexFacts.lang_class_inv & H2%IH)%RegexFacts.lang_cat_inv.
      destruct H2 as [Hl Ha]. rewrite js_length_app, all_chars_app. simpl all_chars.
      rewrite Hc, Ha. split; [|reflexivity].
      unfold Js.length in *. simpl String.length. lia.
    + intros [Hl Ha]. destruct s as [|c s]; [unfold Js.length in Hl; simpl in Hl; lia|].
      simpl in Ha. apply andb_true_iff in Ha as [Hc Hs].
      change (String c s) with (String c "" +:+ s).
      constructor; [constructor; exact Hc|]. apply IH. split; [|exact Hs].
      unfold Js.length in *. simpl String.length in Hl. lia.
Qed.

Lemma split_at n s :
  Z.of_nat n <= Js.length s ->
  exists s1 s2, s = s1 +:+ s2 /\ Js.length s1 = Z.of_nat n.
Proof.
  revert s. induction n as [|n IH]; intros s Hl.
  - exists "", s. auto.
  - destruct s as [|c s]; [unfold Js.length in Hl; simpl in Hl; lia|].
    destruct (IH s) as (s1 & s2 & -> & H1).
    { unfold Js.length in *. simpl String.length in Hl. lia. }
    exists (String c s1), s2. split; [reflexivity|].
    unfold Js.length in *. simpl String.length. lia.
Qed.

Lemma lang_atleast_class p n s :
  lang (AtLeast n (Class p)) s <-> Z.of_nat n <= Js.length s /\ all_chars p s = true.
Proof.
  unfold AtLeast. split.
  - intros (s1 & s2 & -> & [Hl Ha]%lang_repeat_class & H2%lang_star_class)%RegexFacts.lang_cat_inv.
    rewrite js_length_app, all_chars_app, Ha, H2. split; [|reflexivity].
    unfold Js.length in *. lia.
  - intros [Hl Ha]. destruct (split_at n s Hl) as (s1 & s2 & -> & H1).
    rewrite all_chars_app in Ha. apply andb_true_iff in Ha as [Ha1 Ha2].
    constructor; [apply lang_repeat_class; auto | apply lang_star_class; auto].
Qed.

Lemma strip_plus_other c r : c <> "+"%char -> strip_plus (String c r) = String c r.
Proof. intros Hc. destruct c as [[] [] [] [] [] [] [] []]; try reflexivity; congruence. Qed.

Lemma phone_pattern_shape (s : string) :
  test_anchored phoneRegex s = phone_shape s.
Proof.
  apply eq_true_iff_eq. unfold test_anchored, phoneRegex, phone_shape.
  rewrite RegexFacts.matches_lang, andb_true_iff, Z.leb_le. split.
  - intros (s1 & s2 & -> & H1 & [Hl Ha]%lang_atleast_class)%RegexFacts.lang_cat_inv.
    apply RegexFacts.lang_alt_inv in H1 as [->%lang_chr | ->%RegexFacts.lang_eps_inv].
    + simpl strip_plus. auto.
    + rewrite RegexFacts.app_nil_l. destruct s2 as [|c r]; [auto|].
      rewrite strip_plus_other; [auto|]. intros ->. simpl in Ha. discriminate.
  - intros [Hl Ha]. destruct s as [|c r].
    + rewrite <- (RegexFacts.app_nil_l ""). constructor.
      * apply lang_alt_r. constructor.
      * apply lang_atleast_class. auto.
    + destruct (Ascii.eqb_spec c "+") as [->|Hc].
      * simpl strip_plus in *. change (String "+" r) with (String "+" "" +:+ r).
        constructor; [apply lang_alt_l, lang_chr; reflexivity|].
        apply lang_atleast_class. auto.
      * rewrite strip_plus_other in * by exact Hc.
        rewrite <- (RegexFacts.app_nil_l (String c r)). constructor.
        -- apply lang_alt_r. constructor.
        -- apply lang_atleast_class. auto.
Qed.

(** X2. The phone pattern of [validateUserProfileUpdate] accepts exactly the
    strings that, after one optional leading "+", are at least ten characters
    long and made only of digits, white space, "-", "(" and ")". *)
Theorem phoneRegex_shape (s : string) :
  test_anchored phoneRegex s = true
  <-> exists r, (s = r \/ s = String "+" r)
                /\ 10 <= Js.length r
                /\ all_chars Validation.phone_char r = true.
Proof.
  rewrite phone_pattern_shape. unfold phone_shape.
  rewrite andb_true_iff, Z.leb_le. split.
  - intros [Hl Ha]. exists (strip_plus s). split; [|auto].
    destruct s as [|c r]; [left; reflexivity|].
    destruct (Ascii.eqb_spec c "+") as [->|Hc].
    + right. reflexivity.
    + left. symmetry. apply strip_plus_other. exact Hc.
  - intros (r & [-> | ->] & Hl & Ha).
    + destruct r as [|c r]; [auto|].
      rewrite strip_plus_other; [auto|]. intros ->. simpl in Ha. discriminate.
    + simpl strip_plus. auto.
Qed.

Lemma trimStart_empty_iff s : Js.trimStart s = "" <-> all_chars Js.is_space s = true.
Proof.
  induction s as [|c s IH]; simpl; [tauto|].
  destruct (Js.is_space c); simpl; [exact IH|]. split; discriminate.
Qed.

Lemma trimStart_head s :
  Js.trimStart s = "" \/ exists c r, Js.trimStart s = String c r /\ Js.is_space c = false.
Proof.
  induction s as [|c s IH]; simpl; [auto|].
  destruct (Js.is_space c) eqn:E; [exact IH | eauto].
Qed.

Lemma all_chars_rev_app p s t :
  all_chars p (String.rev_app s t) = all_chars p s && all_chars p t.
Proof.
  revert t. induction s as [|c s IH]; intros t; simpl; [reflexivity|].
  rewrite IH. simpl. rewrite !andb_assoc. f_equal. apply andb_comm.
Qed.

Lemma all_chars_rev p s : all_chars p (String.rev s) = all_chars p s.
Proof. unfold String.rev. rewrite all_chars_rev_app. simpl. apply andb_true_r. Qed.

Lemma rev_app_empty s t : String.rev_app s t = "" -> s = "" /\ t = "".
Proof.
  revert t. induction s as [|c s IH]; intros t; simpl; [auto|].
  intros [_ [=]]%IH.
Qed.

(** Trimming leaves nothing exactly when every character is white space. *)
Lemma trim_empty_iff s : Js.trim s = "" <-> all_chars Js.is_space s = true.
Proof.
  unfold Js.trim, Js.trimEnd. split.
  - intros H. unfold String.rev at 1 in H. apply rev_app_empty in H as [H _].
    apply trimStart_empty_iff in H. rewrite all_chars_rev in H.
    destruct (trimStart_head s) as [E | (c & r & E & Hc)].
    + apply trimStart_empty_iff. exact E.
    + rewrite E in H. simpl in H. rewrite Hc in H. discriminate.
  - intros H. apply trimStart_empty_iff in H. rewrite H. reflexivity.
Qed.

Lemma js_length_zero s : (Js.length s =? 0) = true <-> s = "".
Proof.
  unfold Js.length. rewrite Z.eqb_eq. destruct s; simpl; split; try congruence; lia.
Qed.

Lemma name_rule v :
  negb (Js.is_undefined v)
  && (negb (String.eqb (Js.typeof v) "string")
      || (Js.length (Js.trim (as_str v)) =? 0)) = false
  /\ negb (Js.is_undefined v) && (100 <? Js.length (as_str v)) = false
  <-> name_ok v.
Proof.
  unfold name_ok. destruct v; simpl.
  1: { split; auto. }
  4: { rewrite Z.ltb_ge. split.
       - intros [H1 H2]. right. exists s. repeat split; auto.
         destruct (all_chars Js.is_space s) eqn:E; [|reflexivity].
         apply trim_empty_iff in E. rewrite E in H1. discriminate.
       - intros [[=] | (s' & [= <-] & Hsp & Hlen)]. split; [|exact Hlen].
         destruct (Js.length (Js.trim s) =? 0) eqn:E; [|reflexivity].
         apply js_length_zero, trim_empty_iff in E. congruence. }
  all: split; [intros [[=] _] | intros [[=] | (s' & [=] & _)]].
Qed.

Lemma bio_rule v :
  negb (Js.is_undefined v) && negb (String.eqb (Js.typeof v) "string") = false
  /\ negb (Js.is_undefined v) && (500 <? Js.length (as_str v)) = false
  <-> bio_ok v.
Proof.
  unfold bio_ok. destruct v; simpl.
  1: { split; auto. }
  4: { rewrite Z.ltb_ge. split.
       - intros [_ H]. right. eauto.
       - intros [[=] | (s' & [= <-] & Hlen)]. auto. }
  all: split; [intros [[=] _] | intros [[=] | (s' & [=] & _)]].
Qed.

Lemma age_rule v :
  negb (Js.is_undefined v)
  && (negb (String.eqb (Js.typeof v) "number")
      || Js.num_ltb (as_num v) (Js.Finite 0)
      || Js.num_ltb (Js.Finite 150) (as_num v)) = false
  <-> age_ok v.
Proof.
  unfold age_ok. destruct v; simpl.
  1: { split; auto. }
  3: { rewrite orb_false_iff. split.
       - intros [H1 H2]. right. eauto.
       - intros [[=] | (m & [= <-] & H1 & H2)]. auto. }
  all: split; [intros [=] | intros [[=] | (m & [=] & _)]].
Qed.

Lemma phone_rule v :
  negb (Js.is_undefined v) && negb (Js.is_null v)
  && negb (String.eqb (Js.typeof v) "string") = false
  /\ negb (Js.is_undefined v) && negb (Js.is_null v)
     && negb (test_anchored phoneRegex (as_str v)) = false
  <-> phone_ok v.
Proof.
  unfold phone_ok. rewrite phone_pattern_shape. destruct v; simpl.
  1: { split; auto. }
  1: { split; auto. }
  3: { rewrite negb_false_iff. split.
       - intros [_ H]. right. right. eauto.
       - intros [[=] | [[=] | (s' & [= <-] & H)]]. auto. }
  all: split; [intros [[=] _] | intros [[=] | [[=] | (s' & [=] & _)]]].
Qed.

(** X3. [validateUserProfileUpdate] calls the next handler exactly when each
    of the four fields passes its own rule (name absent or a string that is not
    only white space and at most 100 long; bio absent or a string at most 500
    long; age absent or a Number neither below 0 nor above 150; phone absent,
    null or a string of the phone shape); in every other case the answer is a
    400 error. *)
Theorem validateUserProfileUpdate_accepts_iff (req : Request) :
  let b := body req in
  (validateUserProfileUpdate req = next req
   <-> name_ok (Js.get "name" b) /\ bio_ok (Js.get "bio" b)
       /\ age_ok (Js.get "age" b) /\ phone_ok (Js.get "phone" b))
  /\ (validateUserProfileUpdate req = next req
      \/ exists msg, validateUserProfileUpdate req = respond (error_json 400 msg)).
Proof.
  intros b. unfold validateUserProfileUpdate. fold b.
  rewrite <- name_rule, <- bio_rule, <- age_rule, <- phone_rule.
  repeat match goal with
         | |- context [if ?c then respond _ else _] =>
             let E := fresh "E" in destruct c eqn:E
         end;
    (split; [split; [intro Hx; try discriminate Hx; repeat split; reflexivity
                    | intuition discriminate]
            | eauto]).
Qed.

(** X1. [validateEmail] answers 400 "Email is required" when the body's email
    is falsy; for a string email it calls the next handler exactly when the
    whole string has the shape local@domain.tld, each of the three parts
    non-empty and free of white space and of "@"; any other non-empty string
    is answered 400 "Invalid email format". *)
Theorem validateEmail_accepts_iff {host : Host} (req : Request) :
  let email := Js.get "email" (body req) in
  (Js.truthy email = false ->
   validateEmail req = respond (error_json 400 "Email is required"))
  /\ (forall s, email = Js.Str s ->
        (validateEmail req = next req <-> email_shape s))
  /\ (forall s, email = Js.Str s -> s <> "" -> ~ email_shape s ->
        validateEmail req = respond (error_json 400 "Invalid email format")).
Proof.
  intros email. unfold validateEmail. fold email. repeat split.
  - intros ->. reflexivity.
  - rewrite H. simpl Conv.ToString. intros Hn.
    destruct (Js.truthy (Js.Str s)); simpl in Hn; [|discriminate].
    destruct (test_anchored emailRegex s) eqn:E; simpl in Hn; [|discriminate].
    apply emailRegex_shape. exact E.
  - rewrite H. intros Hs. pose proof Hs as (a & b0 & c0 & Es & [Ha _] & _).
    apply emailRegex_shape in Hs. simpl Conv.ToString. rewrite Hs.
    destruct s; [destruct a; [congruence | discriminate Es] | reflexivity].
  - intros s -> Hne Hshape. simpl Conv.ToString.
    destruct s; [congruence|].
    destruct (test_anchored emailRegex (String a s)) eqn:E; [|reflexivity].
    apply emailRegex_shape in E. contradiction.
Qed.

End ValidatorShapes.

(** ** The duplicated checks of dryViolations.ts *)
Section DuplicateFacts.
Import Http Validation Regex Shapes DryViolations.

(** X4. The three email checks of dryViolations.ts compute the same function:
    true exactly on the strings of the shape local@domain.tld; and
    [validateEmail] lets a string email through exactly when they return
    true. *)
Theorem email_checks_agree (email : string) :
  validateEmailFormat2 email = validateEmailFormat1 email
  /\ checkEmail email = validateEmailFormat1 email
  /\ (validateEmailFormat1 email = true <-> email_shape email)
  /\ (forall (host : Host) req,
        Js.get "email" (body req) = Js.Str email ->
        (validateEmail req = next req <-> validateEmailFormat1 email = true)).
Proof.
  assert (Hshape : validateEmailFormat1 email = true <-> email_shape email).
  { unfold validateEmailFormat1. rewrite <- emailRegex_shape.
    destruct email; [|reflexivity]. simpl. split; discriminate. }
  split; [reflexivity|]. split; [|split; [exact Hshape|]].
  - unfold checkEmail, validateEmailFormat1. simpl.
    destruct (String.eqb email ""); reflexivity.
  - intros host req Hemail. unfold validateEmail. rewrite Hemail.
    simpl Conv.ToString. unfold validateEmailFormat1.
    destruct (negb (Js.truthy (Js.Str email))); [split; discriminate|].
    destruct (test_anchored emailRegex email); simpl; split; congruence.
Qed.

(** X5. The two age checks of dryViolations.ts agree on every number but NaN:
    [validateAge1] refuses NaN, [validateAge2] accepts it, since it only
    refuses what compares below 0 or above 150. *)
Theorem age_checks_differ_at_NaN :
  (forall age, age <> Js.NaN -> validateAge1 age = validateAge2 age)
  /\ validateAge1 Js.NaN = false
  /\ validateAge2 Js.NaN = true
  /\ (forall age,
        validateAge2 age
        = negb (Js.num_ltb age (Js.Finite 0) || Js.num_ltb (Js.Finite 150) age)).
Proof.
  split; [|split; [reflexivity | split; [reflexivity|]]].
  - intros [|[]|q] Hn; try congruence; try reflexivity.
    unfold validateAge1, validateAge2. simpl.
    destruct (Qle_bool 0 q), (Qle_bool q 150); reflexivity.
  - intros age. unfold validateAge2.
    destruct (Js.num_ltb age (Js.Finite 0)); [reflexivity|].
    destruct (Js.num_ltb (Js.Finite 150) age); reflexivity.
Qed.

(** X6. The two password checks of dryViolations.ts compute the same function:
    true exactly on the passwords of at least 8 characters with a letter and a
    digit; and [validatePassword] lets a string password through exactly when
    they return true. *)
Theorem password_checks_agree (password : string) :
  checkPasswordStrength2 password = checkPasswordStrength1 password
  /\ (checkPasswordStrength1 password = true
      <-> 8 <= Js.length password
          /\ Js.has_char Js.is_letter password /\ Js.has_char Js.is_digit password)
  /\ (forall req,
        Js.get "password" (body req) = Js.Str password ->
        (validatePassword req = next req <-> checkPasswordStrength1 password = true)).
Proof.
  assert (Htruthy : (Js.length password <? 8) = false ->
                    negb (Js.truthy (Js.Str password)) = false).
  { intros H. destruct password; [discriminate H | reflexivity]. }
  split; [|split].
  - unfold checkPasswordStrength1, checkPasswordStrength2.
    destruct (Js.length password <? 8) eqn:E; [rewrite orb_true_r; reflexivity|].
    rewrite (Htruthy eq_refl). reflexivity.
  - unfold checkPasswordStrength1. rewrite !RegexFacts.test_class, !has_char_existsb.
    destruct (Z.ltb_spec (Js.length password) 8) as [Hl|Hl].
    + rewrite orb_true_r. split; [discriminate | lia].
    + rewrite (Htruthy eq_refl). simpl. rewrite andb_true_iff. intuition.
  - intros req Hpw. unfold validatePassword, checkPasswordStrength1. rewrite Hpw.
    simpl Js.typeof. simpl as_str. simpl (negb (String.eqb _ _)). rewrite orb_false_l.
    destruct (Js.length password <? 8) eqn:E.
    + rewrite orb_true_r. destruct (negb (Js.truthy (Js.Str password))); split; discriminate.
    + rewrite (Htruthy eq_refl). simpl.
      destruct (test (Class Js.is_digit) password), (test (Class Js.is_letter) password);
        simpl; split; congruence.
Qed.

End DuplicateFacts.

(** ** Guards and routes *)
Section RouteFacts.
Import Exn Prisma Http Shapes.
Context {host : Host}.

Lemma requireAuth_missing req :
  headers req !! "x-user-id" = None \/ headers req !! "x-user-id" = Some "" ->
  Auth.requireAuth req = respond (error_json 401 "Unauthorized: User ID required").
Proof. unfold Auth.requireAuth, header. intros [-> | ->]; reflexivity. Qed.

Lemma requireAuth_present req h :
  headers req !! "x-user-id" = Some h -> h <> "" ->
  Auth.requireAuth req
  = next {| headers := headers req; params_id := params_id req; body := body req;
            userId := Js.Num (Js.parseInt h); userRole := header req "x-user-role" |}.
Proof.
  intros Hh Hne.
  assert (Hv : header req "x-user-id" = Js.Str h) by (unfold header; rewrite Hh; reflexivity).
  unfold Auth.requireAuth. rewrite Hv. destruct h; [congruence | reflexivity].
Qed.

(** X7. GET /users/:id and PUT /users/:id answer 401 "Unauthorized: User ID
    required" and leave the store untouched when the x-user-id header is
    missing or empty, whatever the rest of the request is. *)
Theorem routes_require_identity (req : Request) (st : db) :
  headers req !! "x-user-id" = None \/ headers req !! "x-user-id" = Some "" ->
  Routes.get_user req st
  = (Ok (error_json 401 "Unauthorized: User ID required"), st)
  /\ Routes.put_user req st
     = (Ok (error_json 401 "Unauthorized: User ID required"), st).
Proof.
  intros H. unfold Routes.get_user, Routes.put_user. simpl.
  rewrite (requireAuth_missing req H). split; reflexivity.
Qed.

(** X8. With a non-empty x-user-id header, GET and PUT /users/:id answer 400
    "Invalid user ID" when the path id does not parse, and 403 when it parses
    to a number other than the caller's and the x-user-role header is not
    "admin"; the store is untouched in both cases. *)
Theorem routes_refuse_other_users (req : Request) (st : db) (h : string) :
  headers req !! "x-user-id" = Some h -> h <> "" ->
  (Js.parseInt (params_id req) = Js.NaN ->
   Routes.get_user req st = (Ok (error_json 400 "Invalid user ID"), st)
   /\ Routes.put_user req st = (Ok (error_json 400 "Invalid user ID"), st))
  /\ (Js.parseInt (params_id req) <> Js.NaN ->
      Js.num_eqb (Js.parseInt h) (Js.parseInt (params_id req)) = false ->
      headers req !! "x-user-role" <> Some "admin" ->
      Routes.get_user req st
      = (Ok (error_json 403 "Forbidden: Cannot access other user resources"), st)
      /\ Routes.put_user req st
         = (Ok (error_json 403 "Forbidden: Cannot access other user resources"), st)).
Proof.
  intros Hh Hne. unfold Routes.get_user, Routes.put_user. simpl.
  rewrite (requireAuth_present req h Hh Hne).
  unfold Auth.requireOwnershipOrAdmin. simpl. split.
  - intros ->. split; reflexivity.
  - intros Hn%isNaN_false_iff Hneq Hrole. rewrite Hn, Hneq.
    assert (Hr : Js.strict_eq_str (header req "x-user-role") "admin" = false).
    { apply strict_eq_str_false_iff. unfold header.
      destruct (headers req !! "x-user-role"); congruence. }
    rewrite Hr. split; reflexivity.
Qed.

(** X9. [requireAdmin] calls the next handler exactly when the request's role
    is the string "admin" and answers 403 otherwise; whoever passes it also
    passes [requireOwnershipOrAdmin] unless the path id is invalid; and after
    [requireAuth] the role is the x-user-role header. *)
Theorem requireAdmin_decides (req : Request) :
  (Auth.requireAdmin req = next req <-> userRole req = Js.Str "admin")
  /\ (userRole req <> Js.Str "admin" ->
      Auth.requireAdmin req = respond (error_json 403 "Forbidden: Admin access required"))
  /\ (Auth.requireAdmin req = next req ->
      Auth.requireOwnershipOrAdmin req = next req
      \/ Auth.requireOwnershipOrAdmin req = respond (error_json 400 "Invalid user ID"))
  /\ (forall req',
        Auth.requireAuth req = next req' ->
        (Auth.requireAdmin req' = next req'
         <-> headers req !! "x-user-role" = Some "admin")).
Proof.
  unfold Auth.requireAdmin.
  assert (Hiff : (if negb (Js.strict_eq_str (userRole req) "admin")
                  then respond (error_json 403 "Forbidden: Admin access required")
                  else next req) = next req <-> userRole req = Js.Str "admin").
  { rewrite <- strict_eq_str_iff.
    destruct (Js.strict_eq_str (userRole req) "admin"); simpl; split; congruence. }
  split; [exact Hiff|]. split; [|split].
  - intros ->%strict_eq_str_false_iff. reflexivity.
  - intros Hr%Hiff. unfold Auth.requireOwnershipOrAdmin.
    destruct (Js.isNaN _); [right; reflexivity|]. left.
    apply strict_eq_str_iff in Hr. rewrite Hr, andb_false_r. reflexivity.
  - intros req'. unfold Auth.requireAuth.
    destruct (negb (Js.truthy (header req "x-user-id"))); [discriminate|].
    intros [= <-]. simpl. unfold header.
    destruct (headers req !! "x-user-role") as [r|]; simpl.
    + destruct (String.eqb_spec r "admin") as [->|Hr]; simpl; split; congruence.
    + split; discriminate.
Qed.

Lemma chain_cases {S : Type} mws (handler : Request -> Async.M S Response) req st :
  (exists mw req0 res,
      In mw mws /\ mw req0 = respond res
      /\ RoutesOf.chain mws handler req st = (Ok res, st))
  \/ (exists req', RoutesOf.chain mws handler req st = handler req' st).
Proof.
  revert req. induction mws as [|mw mws IH]; intros req; simpl.
  - right. eauto.
  - destruct (mw req) as [req'|res] eqn:E.
    + destruct (IH req') as [(mw' & req0 & res & Hin & Hr & Hc) | (req'' & Hc)].
      * left. exists mw', req0, res. auto.
      * right. eauto.
    + left. exists mw, req, res. auto.
Qed.

Lemma findUnique_state w st : snd (findUnique w st) = st.
Proof.
  unfold findUnique.
  destruct (arg_int (Js.get "id" w)), (arg_str (Js.get "email" w)); reflexivity.
Qed.

Lemma findById_state n st r st' : UserRepository.findById n st = (r, st') -> st' = st.
Proof. intros H. pose proof (findUnique_state {[ "id" := Js.Num n ]} st) as Hs.
  unfold UserRepository.findById in H. rewrite H in Hs. exact Hs. Qed.

(** The answer of a controller to an exception, whatever the exception. *)
Lemma handler_known {S : Type} (e : exn) (st : S) :
  (exists res,
     (if String.eqb (message e) "User not found"
      then UserControllerOf.send_error 404 "User not found"
      else UserControllerOf.send_error 500 "Internal server error") st = (Ok res, st)
     /\ known_error res)
  /\ (exists res,
        (if String.eqb (message e) "User not found"
         then UserControllerOf.send_error 404 "User not found"
         else if String.eqb (message e) "Invalid age"
              then UserControllerOf.send_error 400 "Invalid age"
              else UserControllerOf.send_error 500 "Internal server error") st
        = (Ok res, st)
        /\ known_error res).
Proof.
  split;
    repeat match goal with |- context [if ?c then _ else _] => destruct c end;
    eexists; (split; [reflexivity|]); eexists _, _;
    (split; [reflexivity|]); (split; [lia|]); simpl; tauto.
Qed.

Lemma controller_getUserProfile_cases {S : Type} (prisma : Injected.PrismaClient S)
  req st :
  exists res st',
    UserControllerOf.getUserProfile prisma req st = (Ok res, st')
    /\ (status res = 200 \/ known_error res).
Proof.
  unfold UserControllerOf.getUserProfile, Async.try_catch, Async.bind.
  destruct (UserServiceOf.getUserProfile _ _ _) as [[v|e] st1] eqn:Hs.
  - eexists _, _. split; [reflexivity|]. left. reflexivity.
  - destruct (handler_known e st1) as ((res & -> & Hk) & _).
    eexists _, _. split; [reflexivity|]. auto.
Qed.

Lemma controller_updateUserProfile_cases {S : Type} (prisma : Injected.PrismaClient S)
  req st :
  exists res st',
    UserControllerOf.updateUserProfile prisma req st = (Ok res, st')
    /\ (status res = 200 \/ known_error res).
Proof.
  unfold UserControllerOf.updateUserProfile, Async.try_catch, Async.bind.
  destruct (UserServiceOf.updateUserProfile _ _ _ _) as [[v|e] st1] eqn:Hs.
  - eexists _, _. split; [reflexivity|]. left. reflexivity.
  - destruct (handler_known e st1) as (_ & (res & -> & Hk)).
    eexists _, _. split; [reflexivity|]. auto.
Qed.

Ltac rejects_known :=
  intros req res; cbv beta delta [Validation.validateEmail Validation.validatePassword
    Validation.validateUserProfileUpdate Auth.requireAuth Auth.requireOwnershipOrAdmin] zeta;
  repeat match goal with
         | |- context [if ?c then _ else _] => destruct c
         end;
  intros [= <-]; eexists _, _; (split; [reflexivity|]); (split; [lia|]); simpl; tauto.

Lemma middleware_known mw :
  In mw [Validation.validateEmail; Validation.validatePassword; Auth.requireAuth;
         Auth.requireOwnershipOrAdmin; Validation.validateUserProfileUpdate] ->
  forall req res, mw req = respond res -> known_error res.
Proof.
  intros [<- | [<- | [<- | [<- | [<- | []]]]]]; rejects_known.
Qed.

Lemma route_cases {S : Type} mws (handler : Request -> Async.M S Response) req st :
  (forall mw, In mw mws ->
     In mw [Validation.validateEmail; Validation.validatePassword; Auth.requireAuth;
            Auth.requireOwnershipOrAdmin; Validation.validateUserProfileUpdate]) ->
  (forall req' , exists res st',
      handler req' st = (Ok res, st') /\ (status res = 200 \/ known_error res)) ->
  exists res st',
    RoutesOf.chain mws handler req st = (Ok res, st')
    /\ (status res = 200 \/ known_error res).
Proof.
  intros Hmws Hh.
  destruct (chain_cases mws handler req st)
    as [(mw & req0 & res & Hin & Hr & ->) | (req' & ->)]; [|apply Hh].
  exists res, st. split; [reflexivity|]. right.
  eapply middleware_known; eauto.
Qed.

(** X10. Whatever the client does, GET /users/:id and PUT /users/:id let no
    exception escape: each answers 200 or with an error object whose status
    is at least 400 and whose message is one of the literals written in the
    middleware and the controller. *)
Theorem routes_answer_known_errors {S : Type} (prisma : Injected.PrismaClient S)
  (req : Request) (st : S) :
  (exists res st',
     RoutesOf.get_user prisma req st = (Ok res, st')
     /\ (status res = 200 \/ known_error res))
  /\ (exists res st',
        RoutesOf.put_user prisma req st = (Ok res, st')
        /\ (status res = 200 \/ known_error res)).
Proof.
  split.
  - apply route_cases; [simpl; tauto|]. intros. apply controller_getUserProfile_cases.
  - apply route_cases; [simpl; tauto|]. intros. apply controller_updateUserProfile_cases.
Qed.

End RouteFacts.

(** ** The service on the table *)
Section ServiceRoundTrips.
Import Exn Prisma Http Contract Shapes.
Context {host : Host}.

Lemma find_app_fresh {A} (f : A -> bool) l x :
  List.find f l = None -> f x = true -> List.find f (l ++ [x]) = Some x.
Proof.
  intros Hl Hx. induction l as [|a l IH]; simpl in *.
  - rewrite Hx. reflexivity.
  - destruct (f a); [discriminate | auto].
Qed.

Lemma createUser_new_row st e p name bio age phone salt :
  List.find (by_email e) (users st) = None ->
  Js.optional_string name -> Js.optional_string bio ->
  Js.optional_int age -> Js.optional_string phone ->
  UserService.createUser (Js.Str e) (Js.Str p) name bio age phone salt st
  = (Ok (Js.Obj (to_object (new_row st e (bcrypt_hash p 10 salt) name bio age phone))),
     {| users := users st ++ [new_row st e (bcrypt_hash p 10 salt) name bio age phone];
        next_id := next_id st + 1; clock := clock st |}).
Proof.
  intros Hnew Hn Hb Ha Hp.
  rewrite createUser_str, Hnew. unfold bind; simpl.
  rewrite create_account_object.
  rewrite (optional_string_valid _ Hn), (optional_string_valid _ Hb),
    (optional_int_valid _ Ha), (optional_string_valid _ Hp). simpl.
  apply find_none_existsb in Hnew. rewrite Hnew. reflexivity.
Qed.

(** X11. After [createUser] registered a fresh email with password p,
    [authenticateUser] with the same email and p returns that user without the
    password field, provided bcrypt's compare accepts p against its own hash;
    any password that compare refuses raises "Invalid credentials". *)
Theorem register_then_authenticate (st : db) (e p : string)
  (name bio age phone : Js.value) (salt : string) :
  bcrypt_compare p (bcrypt_hash p 10 salt) = true ->
  List.find (by_email e) (users st) = None ->
  Js.optional_string name -> Js.optional_string bio ->
  Js.optional_int age -> Js.optional_string phone ->
  exists user st1,
    UserService.createUser (Js.Str e) (Js.Str p) name bio age phone salt st
    = (Ok user, st1)
    /\ UserService.authenticateUser (Js.Str e) (Js.Str p) st1
       = (Ok (Js.Obj (Js.omit "password" (UserService.props user))), st1)
    /\ (forall p', bcrypt_compare p' (bcrypt_hash p 10 salt) = false ->
          UserService.authenticateUser (Js.Str e) (Js.Str p') st1
          = (Throw (Error "Invalid credentials"), st1)).
Proof.
  intros Hcmp Hnew Hn Hb Ha Hp.
  rewrite (createUser_new_row st e p name bio age phone salt Hnew Hn Hb Ha Hp).
  eexists _, _. split; [reflexivity|].
  assert (Hfind : List.find (by_email e)
            (users st ++ [new_row st e (bcrypt_hash p 10 salt) name bio age phone])
          = Some (new_row st e (bcrypt_hash p 10 salt) name bio age phone)).
  { apply find_app_fresh; [exact Hnew | apply String.eqb_refl]. }
  split.
  - rewrite authenticateUser_str. simpl users. rewrite Hfind. simpl password.
    rewrite Hcmp. reflexivity.
  - intros p' Hp'. rewrite authenticateUser_str. simpl users. rewrite Hfind.
    simpl password. rewrite Hp'. reflexivity.
Qed.

Lemma find_by_id_fresh st :
  Forall (fun u => id u < next_id st) (users st) ->
  List.find (by_id (next_id st)) (users st) = None.
Proof.
  intros H. apply find_none_existsb. apply not_true_is_false. intros Hex.
  apply List.existsb_exists in Hex as (u & Hin & Hid).
  rewrite Forall_forall in H.
  assert (Hlt : id u < next_id st).
  { apply H. apply list_elem_of_In. exact Hin. }
  unfold by_id in Hid. apply Z.eqb_eq in Hid. lia.
Qed.

(** X12. In a well-formed table, [createUser] with a fresh email returns a
    user whose id is the next identifier and whose email is the given one, and
    [getUserProfile] with that id then returns the same user without the
    password field. *)
Theorem register_then_getUserProfile (st : db) (e p : string)
  (name bio age phone : Js.value) (salt : string) :
  db_wf st ->
  List.find (by_email e) (users st) = None ->
  Js.optional_string name -> Js.optional_string bio ->
  Js.optional_int age -> Js.optional_string phone ->
  exists user st1,
    UserService.createUser (Js.Str e) (Js.Str p) name bio age phone salt st
    = (Ok user, st1)
    /\ Js.get "id" (UserService.props user) = Js.int (next_id st)
    /\ Js.get "email" (UserService.props user) = Js.Str e
    /\ UserService.getUserProfile (Js.Finite (inject_Z (next_id st))) st1
       = (Ok (Js.Obj (Js.omit "password" (UserService.props user))), st1).
Proof.
  intros (Hlt & _ & _) Hnew Hn Hb Ha Hp.
  rewrite (createUser_new_row st e p name bio age phone salt Hnew Hn Hb Ha Hp).
  eexists _, _. split; [reflexivity|]. split; [reflexivity|]. split; [reflexivity|].
  rewrite getUserProfile_int. simpl users.
  rewrite (find_app_fresh (by_id (next_id st)) (users st)
             (new_row st e (bcrypt_hash p 10 salt) name bio age phone)).
  - reflexivity.
  - apply find_by_id_fresh. exact Hlt.
  - unfold by_id. simpl. apply Z.eqb_refl.
Qed.

(** X13. [updateUserProfile] of the service does not apply its age check to
    null or NaN: with such an age the call is the repository's update and never
    raises "Invalid age"; updating with age null alone stores no age. *)
Theorem updateUserProfile_age_null_or_NaN (st : db) (z : Z) (u : User)
  (updates : gmap string Js.value) :
  List.find (by_id z) (users st) = Some u ->
  Js.get "age" updates = Js.Null \/ Js.get "age" updates = Js.Num Js.NaN ->
  UserService.updateUserProfile (Js.Finite (inject_Z z)) updates st
  = UserRepository.update (Js.Finite (inject_Z z)) updates st
  /\ UserService.updateUserProfile (Js.Finite (inject_Z z)) updates st
     <> (Throw (Error "Invalid age"), st)
  /\ (updates = {[ "age" := Js.Null ]} ->
      exists st',
        UserService.updateUserProfile (Js.Finite (inject_Z z)) updates st
        = (Ok (Js.Obj (to_object (set_columns updates u))), st')
        /\ age (set_columns updates u) = None).
Proof.
  intros Hf Hage.
  assert (Hcall : UserService.updateUserProfile (Js.Finite (inject_Z z)) updates st
                  = UserRepository.update (Js.Finite (inject_Z z)) updates st).
  { rewrite updateUserProfile_int, Hf. destruct Hage as [-> | ->]; reflexivity. }
  split; [exact Hcall|]. split.
  - rewrite Hcall. intros H. apply update_throws in H as [H _]. discriminate.
  - intros ->. rewrite Hcall, update_int, Hf. eexists. split; reflexivity.
Qed.

(** X14. [updateUserProfile] of the service passes the whole updates object
    to the repository: an email key, which its type does not list, changes the
    stored email of the user, whose id and password stay. *)
Theorem updateUserProfile_passes_email_through (st : db) (z : Z) (u : User) (e' : string) :
  List.find (by_id z) (users st) = Some u ->
  List.existsb (fun v => by_email e' v && negb (by_id z v)) (users st) = false ->
  exists u' st',
    UserService.updateUserProfile (Js.Finite (inject_Z z)) {[ "email" := Js.Str e' ]} st
    = (Ok (Js.Obj (to_object u')), st')
    /\ email u' = e' /\ id u' = id u /\ password u' = password u
    /\ List.find (by_id z) (users st') = Some u'.
Proof.
  intros Hf Hfree.
  rewrite updateUserProfile_int, Hf.
  change (Js.get "age" {[ "email" := Js.Str e' ]}) with Js.Undefined. simpl negb.
  cbv iota. simpl andb. cbv iota.
  rewrite update_int, Hf.
  change (valid_columns {[ "email" := Js.Str e' ]}) with true.
  change (arg_str (Js.get "email" {[ "email" := Js.Str e' ]})) with (Given e').
  simpl negb. cbv iota. unfold email_taken. rewrite Hfree.
  eexists _, _. split; [reflexivity|].
  split; [reflexivity|]. split; [reflexivity|]. split; [reflexivity|].
  simpl users. rewrite find_map_update by reflexivity. rewrite Hf. reflexivity.
Qed.

End ServiceRoundTrips.


(** ** Maps with Number keys, and the two caches *)
Section CacheFacts.
Import Exn Prisma JsExtra.

Lemma svz_refl k : same_value_zero k k = true.
Proof. destruct k as [|[]|q]; try reflexivity. simpl. apply Qeq_bool_refl. Qed.

Lemma num_eqb_trans a b c : Js.num_eqb a b = true -> Js.num_eqb a c = Js.num_eqb b c.
Proof.
  destruct a as [|[]|p], b as [|[]|q]; try discriminate; intros H;
    destruct c as [|[]|r]; try reflexivity.
  simpl in *. apply eq_true_iff_eq. rewrite !Qeq_bool_iff.
  apply Qeq_bool_iff in H. rewrite H. reflexivity.
Qed.

Lemma svz_trans a b c :
  same_value_zero a b = true -> same_value_zero a c = same_value_zero b c.
Proof.
  destruct a as [|[]|p], b as [|[]|q]; try discriminate; try reflexivity; intros H;
    destruct c as [|[]|r]; try reflexivity.
  simpl in *. apply eq_true_iff_eq. rewrite !Qeq_bool_iff.
  apply Qeq_bool_iff in H. rewrite H. reflexivity.
Qed.

Context {A : Type}.
Implicit Types (m : list (Js.number * A)) (k : Js.number).

Lemma map_get_set_same k (v : A) m : map_get k (map_set k v m) = Some v.
Proof.
  induction m as [|[k' v'] m IH]; simpl.
  - rewrite svz_refl. reflexivity.
  - destruct (same_value_zero k' k) eqn:E; simpl; rewrite E; [reflexivity | exact IH].
Qed.

Lemma map_get_set_other k k' (v : A) m :
  same_value_zero k k' = false -> map_get k' (map_set k v m) = map_get k' m.
Proof.
  intros Hne. induction m as [|[k0 v0] m IH]; simpl.
  - rewrite Hne. reflexivity.
  - destruct (same_value_zero k0 k) eqn:E; simpl.
    + rewrite (svz_trans k0 k k' E), Hne. reflexivity.
    + rewrite IH. reflexivity.
Qed.

Lemma map_get_delete_other k k' m :
  same_value_zero k k' = false -> map_get k' (map_delete k m) = map_get k' m.
Proof.
  intros Hne. induction m as [|[k0 v0] m IH]; simpl; [reflexivity|].
  destruct (same_value_zero k0 k) eqn:E; simpl.
  - rewrite (svz_trans k0 k k' E), Hne. reflexivity.
  - rewrite IH. reflexivity.
Qed.

Lemma map_get_delete_same k m : map_wf m -> map_get k (map_delete k m) = None.
Proof.
  induction m as [|[k0 v0] m IH]; simpl; [reflexivity|].
  intros [Hfresh Hwf]. destruct (same_value_zero k0 k) eqn:E; simpl.
  - destruct (map_get k m) eqn:G; [|reflexivity].
    assert (Hsame : map_get k0 m = map_get k m).
    { clear -E. induction m as [|[k1 v1] m IH]; simpl; [reflexivity|].
      assert (Hk : same_value_zero k1 k0 = same_value_zero k1 k).
      { destruct (same_value_zero k1 k0) eqn:E1.
        - symmetry. rewrite (svz_trans k1 k0 k E1). exact E.
        - destruct (same_value_zero k1 k) eqn:E2; [|reflexivity].
          assert (E3 : same_value_zero k k0 = true).
          { rewrite <- (svz_trans k0 k k0 E). apply svz_refl. }
          rewrite (svz_trans k1 k k0 E2), E3 in E1. discriminate. }
      rewrite Hk, IH. reflexivity. }
    congruence.
  - rewrite E. auto.
Qed.

Lemma map_wf_set k (v : A) m : map_wf m -> map_wf (map_set k v m).
Proof.
  induction m as [|[k0 v0] m IH]; simpl; [auto|].
  intros [Hfresh Hwf]. destruct (same_value_zero k0 k) eqn:E; simpl; [auto|].
  split; [|auto]. rewrite map_get_set_other; [exact Hfresh|].
  destruct (same_value_zero k k0) eqn:E'; [|reflexivity].
  rewrite <- (svz_trans k k0 k E'), svz_refl in E. discriminate.
Qed.

Lemma map_wf_delete k m : map_wf m -> map_wf (map_delete k m).
Proof.
  induction m as [|[k0 v0] m IH]; simpl; [auto|].
  intros [Hfresh Hwf]. destruct (same_value_zero k0 k) eqn:E; simpl; [auto|].
  split; [|auto]. rewrite map_get_delete_other; [exact Hfresh|].
  destruct (same_value_zero k k0) eqn:E'; [|reflexivity].
  rewrite <- (svz_trans k k0 k E'), svz_refl in E. discriminate.
Qed.

End CacheFacts.

Section CacheTheorems.
Import Exn Prisma JsExtra.

(** X17. An entry set into [UserCacheService] at time t is returned by [get]
    up to and including t + 3600000 ms; a later [get] returns null and removes
    the entry for good; a key never set reads null; and a [set] does not change
    what is read at any other key. *)
Theorem cache_entry_lives_for_TTL (cache : UserCacheService.Cache)
  (key : Js.number) (value : Js.value) (t now : Z) :
  let cache1 := UserCacheService.set key value t cache in
  (now - t <= 3600000 ->
   UserCacheService.get key now cache1 = (value, cache1))
  /\ (3600000 < now - t ->
      UserCacheService.get key now cache1 = (Js.Null, map_delete key cache1)
      /\ (map_wf cache ->
          forall now', UserCacheService.get key now' (map_delete key cache1)
                       = (Js.Null, map_delete key cache1)))
  /\ (map_get key cache = None ->
      UserCacheService.get key now cache = (Js.Null, cache))
  /\ (forall key', same_value_zero key key' = false ->
        fst (UserCacheService.get key' now cache1)
        = fst (UserCacheService.get key' now cache)).
Proof.
  intros cache1. unfold UserCacheService.get, UserCacheService.TTL.
  subst cache1. unfold UserCacheService.set.
  rewrite map_get_set_same. simpl UserCacheService.timestamp. simpl UserCacheService.data.
  split; [|split; [|split]].
  - intros H. destruct (Z.ltb_spec 3600000 (now - t)); [lia | reflexivity].
  - intros H. destruct (Z.ltb_spec 3600000 (now - t)); [|lia].
    split; [reflexivity|]. intros Hwf now'.
    rewrite map_get_delete_same; [reflexivity|]. apply map_wf_set. exact Hwf.
  - intros ->. reflexivity.
  - intros key' Hne. rewrite map_get_set_other by exact Hne.
    destruct (map_get key' cache) as [c|]; [|reflexivity].
    destruct (3600000 <? now - UserCacheService.timestamp c); reflexivity.
Qed.

(** X18. After [invalidate] the key reads null and every other key reads as
    before; after [clear] every key reads null; [invalidate] and [set] keep the
    cache a map, one entry per key. *)
Theorem cache_invalidate_and_clear (cache : UserCacheService.Cache)
  (key : Js.number) (now : Z) :
  map_wf cache ->
  UserCacheService.get key now (UserCacheService.invalidate key cache)
  = (Js.Null, UserCacheService.invalidate key cache)
  /\ (forall key', same_value_zero key key' = false ->
        fst (UserCacheService.get key' now (UserCacheService.invalidate key cache))
        = fst (UserCacheService.get key' now cache))
  /\ UserCacheService.get key now (UserCacheService.clear cache) = (Js.Null, [])
  /\ map_wf (UserCacheService.invalidate key cache)
  /\ (forall value t, map_wf (UserCacheService.set key value t cache)).
Proof.
  intros Hwf. unfold UserCacheService.get, UserCacheService.invalidate,
    UserCacheService.clear, UserCacheService.set.
  split; [|split; [|split; [|split]]].
  - rewrite map_get_delete_same by exact Hwf. reflexivity.
  - intros key' Hne. rewrite map_get_delete_other by exact Hne.
    destruct (map_get key' cache) as [c|]; [|reflexivity].
    destruct (_ <? _); reflexivity.
  - reflexivity.
  - apply map_wf_delete. exact Hwf.
  - intros value t. apply map_wf_set. exact Hwf.
Qed.

(** X19. [getCachedUser] never changes the store, and its answer is pinned:
    once it returned v for an id, every later call with the resulting cache
    returns v again, whatever the store has become. On a miss v is
    [findById]'s answer and is cached (null too); on a hit the cache is
    unchanged. *)
Theorem getCachedUser_pins_first_answer (id : Js.number) (cache : UserManager.Cache)
  (st : db) (v : Js.value) (cache' : UserManager.Cache) (st' : db) :
  UserManager.getCachedUser id cache st = (Ok (v, cache'), st') ->
  st' = st
  /\ (forall st2, UserManager.getCachedUser id cache' st2 = (Ok (v, cache'), st2))
  /\ (map_has id cache = false ->
      UserRepository.findById id st = (Ok v, st) /\ cache' = map_set id v cache)
  /\ (map_has id cache = true -> cache' = cache).
Proof.
  unfold UserManager.getCachedUser, map_has.
  destruct (map_get id cache) as [c|] eqn:Hg.
  - intros [= <- <- <-]. split; [reflexivity|]. split; [|split].
    + intros st2. rewrite Hg. reflexivity.
    + discriminate.
    + reflexivity.
  - unfold bind.
    destruct (UserRepository.findById id st) as [[x|e] st1] eqn:Hf; [|discriminate].
    pose proof (findById_state _ _ _ _ Hf) as ->.
    intros [= <- <- <-]. split; [reflexivity|]. split; [|split].
    + intros st2. rewrite map_get_set_same. reflexivity.
    + auto.
    + discriminate.
Qed.

End CacheTheorems.

(** ** The "bad practice" twins *)
Section BadTwins.
Import Exn Prisma Http Contract Shapes.
Context {host : Host} {trace : Trace}.

Lemma strict_eq_str_value h pw : JsExtra.strict_eq (Js.Str h) pw = true <-> pw = Js.Str h.
Proof. simpl. apply strict_eq_str_iff. Qed.

Lemma badAuthenticateUser_str e pw st :
  BadUserService.badAuthenticateUser (Js.Str e) pw st
  = match List.find (by_email e) (users st) with
    | None => (Throw (Error "Invalid credentials"), st)
    | Some u =>
        if Js.strict_eq_str pw (password u)
        then (Ok (Js.Obj (to_object u)), st)
        else (Throw (Error "Invalid credentials"), st)
    end.
Proof.
  unfold BadUserService.badAuthenticateUser, bind.
  rewrite findByEmail_str, truthy_found.
  destruct (List.find _ _) as [u|]; [|reflexivity].
  change (Js.get "password" (UserService.props (found (Some u))))
    with (Js.Str (password u)).
  simpl. destruct (Js.strict_eq_str pw (password u)); reflexivity.
Qed.

(** X20. [badAuthenticateUser] succeeds exactly when the given password is
    strictly equal to the stored password, and then returns the whole record,
    password included; [badGetUserProfile] returns the whole record, password
    included, or null for an unknown id. *)
Theorem bad_service_exposes_password (st : db) :
  (forall e pw, List.find (by_email e) (users st) = None ->
     BadUserService.badAuthenticateUser (Js.Str e) pw st
     = (Throw (Error "Invalid credentials"), st))
  /\ (forall e pw u, List.find (by_email e) (users st) = Some u ->
        (pw = Js.Str (password u) ->
         BadUserService.badAuthenticateUser (Js.Str e) pw st
         = (Ok (Js.Obj (to_object u)), st))
        /\ (pw <> Js.Str (password u) ->
            BadUserService.badAuthenticateUser (Js.Str e) pw st
            = (Throw (Error "Invalid credentials"), st)))
  /\ (forall z u, List.find (by_id z) (users st) = Some u ->
        BadUserService.badGetUserProfile (Js.Finite (inject_Z z)) st
        = (Ok (Js.Obj (to_object u)), st)
        /\ to_object u !! "password" = Some (Js.Str (password u)))
  /\ (forall z, List.find (by_id z) (users st) = None ->
        BadUserService.badGetUserProfile (Js.Finite (inject_Z z)) st = (Ok Js.Null, st)).
Proof.
  split; [|split; [|split]].
  - intros e pw Hf. rewrite badAuthenticateUser_str, Hf. reflexivity.
  - intros e pw u Hf. rewrite badAuthenticateUser_str, Hf. split.
    + intros ->. simpl. rewrite String.eqb_refl. reflexivity.
    + intros Hne%strict_eq_str_false_iff. rewrite Hne. reflexivity.
  - intros z u Hf. unfold BadUserService.badGetUserProfile.
    rewrite findById_int, Hf. split; reflexivity.
  - intros z Hf. unfold BadUserService.badGetUserProfile.
    rewrite findById_int, Hf. reflexivity.
Qed.

Lemma bad_create_object e p name st :
  create {[ "email" := Js.Str e; "password" := Js.Str p; "name" := name ]} st
  = if is_invalid (arg_nullable_str name) then validation_error st
    else if List.existsb (by_email e) (users st) then unique_violation st
    else (Ok (Js.Obj (to_object (new_row st e p name Js.Undefined Js.Undefined Js.Undefined))),
          {| users := users st
                      ++ [new_row st e p name Js.Undefined Js.Undefined Js.Undefined];
             next_id := next_id st + 1; clock := clock st |}).
Proof.
  unfold create.
  change (Js.get "email" _) with (Js.Str e).
  change (Js.get "password" _) with (Js.Str p).
  change (Js.get "name" _) with name.
  change (Js.get "bio" _) with Js.Undefined.
  change (Js.get "age" _) with Js.Undefined.
  change (Js.get "phone" _) with Js.Undefined.
  simpl. rewrite !orb_false_r. destruct (is_invalid _); reflexivity.
Qed.

(** X21. A user registered by [badCreateUser] is stored with the password as
    given; [badAuthenticateUser] accepts it with that password and returns it
    with the password field; [authenticateUser] refuses it unless bcrypt's
    compare accepts the password against itself. *)
Theorem bad_register_then_authenticate (st : db) (e p : string) (name : Js.value) :
  List.find (by_email e) (users st) = None ->
  Js.optional_string name ->
  exists u st1,
    UserService.badCreateUser (Js.Str e) (Js.Str p) name st
    = (Ok (Js.Obj (to_object u)), st1)
    /\ password u = p
    /\ BadUserService.badAuthenticateUser (Js.Str e) (Js.Str p) st1
       = (Ok (Js.Obj (to_object u)), st1)
    /\ Js.get "password" (to_object u) = Js.Str p
    /\ (bcrypt_compare p p = false ->
          UserService.authenticateUser (Js.Str e) (Js.Str p) st1
          = (Throw (Error "Invalid credentials"), st1)).
Proof.
  intros Hnew Hn. unfold UserService.badCreateUser, UserRepository.create.
  rewrite bad_create_object, (optional_string_valid _ Hn).
  pose proof Hnew as Hex. apply find_none_existsb in Hex. rewrite Hex.
  eexists _, _. split; [reflexivity|]. split; [reflexivity|].
  assert (Hfind : List.find (by_email e)
            (users st ++ [new_row st e p name Js.Undefined Js.Undefined Js.Undefined])
          = Some (new_row st e p name Js.Undefined Js.Undefined Js.Undefined)).
  { apply find_app_fresh; [exact Hnew | apply String.eqb_refl]. }
  split; [|split; [reflexivity|]].
  - rewrite badAuthenticateUser_str. simpl users. rewrite Hfind. simpl.
    rewrite String.eqb_refl. reflexivity.
  - intros Hcmp. rewrite authenticateUser_str. simpl users. rewrite Hfind.
    simpl password. rewrite Hcmp. reflexivity.
Qed.

Lemma lt_length p n :
  Conv.lt (JsExtra.length_of (Js.Str p)) (Js.Finite (inject_Z n)) = (Js.length p <? n).
Proof.
  unfold Conv.lt. simpl. apply eq_true_iff_eq.
  rewrite negb_true_iff, Z.ltb_lt, <- not_true_iff_false, Qle_bool_iff, <- Zle_Qle. lia.
Qed.

(** X22. POST /bad/users: a falsy email or password is answered 400 "Email
    and password required"; a string password shorter than 6 is answered 400
    "Password too short"; a registered email 409 "User exists"; otherwise a
    user is appended with the password as given and the name "Unknown" when
    none is given, and the 201 answer carries the stored record, password
    included. *)
Theorem post_bad_users_contract (req : Request) (st : db) :
  let b := body req in
  (Js.truthy (Js.get "email" b) = false \/ Js.truthy (Js.get "password" b) = false ->
   BadRoutes.post_bad_users req st
   = (Ok (error_json 400 "Email and password required"), st))
  /\ (forall e p,
        Js.get "email" b = Js.Str e -> e <> "" ->
        Js.get "password" b = Js.Str p -> p <> "" ->
        (Js.length p < 6 ->
         BadRoutes.post_bad_users req st = (Ok (error_json 400 "Password too short"), st))
        /\ (6 <= Js.length p -> List.find (by_email e) (users st) <> None ->
            BadRoutes.post_bad_users req st = (Ok (error_json 409 "User exists"), st))
        /\ (6 <= Js.length p -> List.find (by_email e) (users st) = None ->
            Js.optional_string (Js.get "name" b) ->
            exists u st',
              BadRoutes.post_bad_users req st
              = (Ok {| status := 201;
                       json := Js.Obj {[ "success" := Js.Bool true;
                                         "message" := Js.Str "User created";
                                         "data" := Js.Obj (to_object u) ]} |}, st')
              /\ users st' = users st ++ [u]
              /\ email u = e /\ password u = p
              /\ to_object u !! "password" = Some (Js.Str p)
              /\ name u = Some (match Js.get "name" b with
                                | Js.Str (String c s) => String c s
                                | _ => "Unknown"
                                end))).
Proof.
  intros b. unfold BadRoutes.post_bad_users. simpl Routes.chain.
  unfold Validation.badValidateUserProfile, BadUserController.badCreateUser. fold b.
  split.
  - intros [-> | ->]; [reflexivity | rewrite orb_true_r; reflexivity].
  - intros e p He Hne Hp Hpne. rewrite He, Hp.
    assert (Hte : Js.truthy (Js.Str e) = true) by (destruct e; [congruence | reflexivity]).
    assert (Htp : Js.truthy (Js.Str p) = true) by (destruct p; [congruence | reflexivity]).
    rewrite Hte, Htp. simpl (negb true || negb true). cbv iota.
    change (Js.Finite 6) with (Js.Finite (inject_Z 6)). rewrite lt_length.
    split; [|split].
    + intros Hl. destruct (Z.ltb_spec (Js.length p) 6); [reflexivity | lia].
    + intros Hl Hf. destruct (Z.ltb_spec (Js.length p) 6); [lia|].
      unfold bind. change (findUnique {[ "email" := Js.Str e ]} st)
        with (UserRepository.findByEmail (Js.Str e) st).
      rewrite findByEmail_str, truthy_found.
      destruct (List.find _ _); [reflexivity | congruence].
    + intros Hl Hf Hn. destruct (Z.ltb_spec (Js.length p) 6); [lia|].
      unfold bind. change (findUnique {[ "email" := Js.Str e ]} st)
        with (UserRepository.findByEmail (Js.Str e) st).
      rewrite findByEmail_str, truthy_found, Hf.
      rewrite bad_create_object.
      apply find_none_existsb in Hf. rewrite Hf.
      destruct Hn as [-> | [[|c s] ->]]; simpl;
        eexists _, _; (split; [reflexivity|]); repeat split; reflexivity.
Qed.

(** X23. Whatever the client does, PUT /bad/users/:id reads no header and
    hands the whole body to the client's [update] for the path id: when the
    client returns a record the answer is 200 with that record as it is,
    password included; when the client throws, the answer is 500 with the
    message and the stack trace of the exception. *)
Theorem put_bad_user_hands_body_to_client {S : Type} (prisma : Injected.PrismaClient S)
  (req : Request) (st : S) :
  let call := Injected.update prisma
                {[ "id" := Js.Num (Js.parseInt (params_id req)) ]} (body req) st in
  (forall user st', call = (Ok user, st') ->
     RoutesOf.put_bad_user prisma req st
     = (Ok {| status := 200; json := Js.Obj user |}, st'))
  /\ (forall e st', call = (Throw e, st') ->
        RoutesOf.put_bad_user prisma req st
        = (Ok {| status := 500;
                 json := Js.Obj {[ "error" := Js.Str "Database error";
                                   "details" := Js.Str (message e);
                                   "stack" := stack e ]} |}, st'))
  /\ (forall req',
        params_id req' = params_id req -> body req' = body req ->
        RoutesOf.put_bad_user prisma req' = RoutesOf.put_bad_user prisma req).
Proof.
  intros call. subst call. split; [|split].
  - intros user st' Hc.
    unfold RoutesOf.put_bad_user, RoutesOf.chain, Auth.badRequireAuth,
      BadUserControllerOf.badUpdateUser, Async.try_catch, Async.bind.
    rewrite Hc. reflexivity.
  - intros e st' Hc.
    unfold RoutesOf.put_bad_user, RoutesOf.chain, Auth.badRequireAuth,
      BadUserControllerOf.badUpdateUser, Async.try_catch, Async.bind.
    rewrite Hc. reflexivity.
  - intros req' Hp Hb.
    unfold RoutesOf.put_bad_user, RoutesOf.chain, Auth.badRequireAuth,
      BadUserControllerOf.badUpdateUser.
    rewrite Hp, Hb. reflexivity.
Qed.

End BadTwins.

(** ** The further properties at concrete inputs *)
Section MoreWitnesses.
Import Exn Prisma Http Contract Shapes JsExtra.

Lemma db_two_wf : db_wf Example2.db_two.
Proof.
  unfold db_wf. simpl. split; [|split].
  - repeat constructor; simpl; lia.
  - repeat constructor; simpl; intuition discriminate.
  - repeat constructor; simpl; intuition discriminate.
Qed.

Lemma validateEmail_accepts_iff_witness :
  Validation.validateEmail (host := Example.host)
    (Example.request ∅ "" {[ "email" := Js.Str "a@b.co" ]})
  = next (Example.request ∅ "" {[ "email" := Js.Str "a@b.co" ]})
  /\ Validation.validateEmail (host := Example.host)
       (Example.request ∅ "" {[ "email" := Js.Str "not-an-email" ]})
     = respond (error_json 400 "Invalid email format")
  /\ Validation.validateEmail (host := Example.host) (Example.request ∅ "" ∅)
     = respond (error_json 400 "Email is required").
Proof.
  split; [|split].
  - pose proof (validateEmail_accepts_iff (host := Example.host)
                  (Example.request ∅ "" {[ "email" := Js.Str "a@b.co" ]})) as H.
    cbv zeta in H. destruct H as (_ & H & _). apply (H "a@b.co" eq_refl).
    exists "a", "b", "co". repeat split; discriminate.
  - pose proof (validateEmail_accepts_iff (host := Example.host)
                  (Example.request ∅ "" {[ "email" := Js.Str "not-an-email" ]})) as H.
    cbv zeta in H. destruct H as (_ & _ & H).
    apply (H "not-an-email" eq_refl); [discriminate|].
    intros Hs%emailRegex_shape. vm_compute in Hs. discriminate.
  - pose proof (validateEmail_accepts_iff (host := Example.host)
                  (Example.request ∅ "" ∅)) as H.
    cbv zeta in H. destruct H as (H & _). apply H. reflexivity.
Defined.

Lemma validateUserProfileUpdate_accepts_iff_witness :
  Validation.validateUserProfileUpdate
    (Example.request ∅ "1"
       {[ "name" := Js.Str "Al"; "age" := Js.int 30; "phone" := Js.Str "+1 (555) 123-4567" ]})
  = next (Example.request ∅ "1"
       {[ "name" := Js.Str "Al"; "age" := Js.int 30; "phone" := Js.Str "+1 (555) 123-4567" ]})
  /\ Validation.validateUserProfileUpdate
       (Example.request ∅ "1" {[ "age" := Js.Num Js.NaN ]})
     = next (Example.request ∅ "1" {[ "age" := Js.Num Js.NaN ]}).
Proof.
  split.
  - pose proof (validateUserProfileUpdate_accepts_iff
                  (Example.request ∅ "1"
                     {[ "name" := Js.Str "Al"; "age" := Js.int 30;
                        "phone" := Js.Str "+1 (555) 123-4567" ]})) as H.
    cbv zeta in H. destruct H as (H & _). apply H. repeat split.
    + right. exists "Al". split; [reflexivity | split; [reflexivity | discriminate]].
    + left. reflexivity.
    + right. exists (Js.Finite (inject_Z 30)). repeat split; reflexivity.
    + right. right. exists "+1 (555) 123-4567". split; reflexivity.
  - pose proof (validateUserProfileUpdate_accepts_iff
                  (Example.request ∅ "1" {[ "age" := Js.Num Js.NaN ]})) as H.
    cbv zeta in H. destruct H as (H & _). apply H. repeat split.
    + left. reflexivity.
    + left. reflexivity.
    + right. exists Js.NaN. repeat split; reflexivity.
    + left. reflexivity.
Defined.

Lemma routes_answer_known_errors_witness :
  RoutesOf.put_user (host := Example.host) Example2.offline
    (Example2.by_user "2" "2" {[ "age" := Js.int 30 ]}) tt
  = (Ok (error_json 500 "Internal server error"), tt)
  /\ known_error (error_json 500 "Internal server error").
Proof.
  split; [reflexivity|].
  destruct (proj2 (routes_answer_known_errors (host := Example.host) Example2.offline
                     (Example2.by_user "2" "2" {[ "age" := Js.int 30 ]}) tt))
    as (res & st' & Hr & Hc).
  injection Hr as <- <-.
  destruct Hc as [Hc | Hc]; [discriminate Hc | exact Hc].
Defined.

Lemma routes_require_identity_witness :
  Routes.get_user (Example.request ∅ "1" ∅) Example.db_alice
  = (Ok (error_json 401 "Unauthorized: User ID required"), Example.db_alice)
  /\ Routes.put_user (host := Example.host)
       (Example.request {[ "x-user-id" := "" ]} "1" {[ "age" := Js.int 30 ]})
       Example.db_alice
     = (Ok (error_json 401 "Unauthorized: User ID required"), Example.db_alice).
Proof.
  split.
  - apply (routes_require_identity (host := Example.host)). left. reflexivity.
  - apply (routes_require_identity (host := Example.host)). right. reflexivity.
Defined.

Lemma routes_refuse_other_users_witness :
  Routes.put_user (host := Example.host)
    (Example2.by_user "2" "1" {[ "age" := Js.int 30 ]}) Example2.db_two
  = (Ok (error_json 403 "Forbidden: Cannot access other user resources"), Example2.db_two)
  /\ Routes.get_user (Example2.by_user "2" "abc" ∅) Example2.db_two
     = (Ok (error_json 400 "Invalid user ID"), Example2.db_two).
Proof.
  split.
  - apply (routes_refuse_other_users (host := Example.host)
             (Example2.by_user "2" "1" {[ "age" := Js.int 30 ]}) Example2.db_two "2");
      [reflexivity | discriminate | discriminate | reflexivity | discriminate].
  - apply (routes_refuse_other_users (host := Example.host)
             (Example2.by_user "2" "abc" ∅) Example2.db_two "2");
      [reflexivity | discriminate | reflexivity].
Defined.

Lemma register_then_authenticate_witness :
  exists user st1,
    UserService.createUser (host := Example.host)
      (Js.Str "x@y.com") (Js.Str "abc12345")
      Js.Undefined Js.Undefined Js.Undefined Js.Undefined "salt" Example.db_empty
    = (Ok user, st1)
    /\ UserService.authenticateUser (host := Example.host)
         (Js.Str "x@y.com") (Js.Str "abc12345") st1
       = (Ok (Js.Obj (Js.omit "password" (UserService.props user))), st1)
    /\ UserService.authenticateUser (host := Example.host)
         (Js.Str "x@y.com") (Js.Str "wrong123") st1
       = (Throw (Error "Invalid credentials"), st1).
Proof.
  destruct (register_then_authenticate (host := Example.host)
              Example.db_empty "x@y.com" "abc12345"
              Js.Undefined Js.Undefined Js.Undefined Js.Undefined "salt")
    as (user & st1 & Hc & Ha & Hw);
    [reflexivity | reflexivity | left; reflexivity | left; reflexivity
     | left; reflexivity | left; reflexivity |].
  exists user, st1. split; [exact Hc|]. split; [exact Ha|]. apply Hw. reflexivity.
Defined.

Lemma register_then_getUserProfile_witness :
  exists user st1,
    UserService.createUser (host := Example.host)
      (Js.Str "carol@y.com") (Js.Str "abc12345")
      (Js.Str "Carol") Js.Undefined (Js.int 33) Js.Undefined "salt" Example2.db_two
    = (Ok user, st1)
    /\ Js.get "id" (UserService.props user) = Js.int 3
    /\ UserService.getUserProfile (Js.Finite (inject_Z 3)) st1
       = (Ok (Js.Obj (Js.omit "password" (UserService.props user))), st1).
Proof.
  destruct (register_then_getUserProfile (host := Example.host)
              Example2.db_two "carol@y.com" "abc12345"
              (Js.Str "Carol") Js.Undefined (Js.int 33) Js.Undefined "salt" db_two_wf)
    as (user & st1 & Hc & Hi & _ & Hg);
    [reflexivity | right; eauto | left; reflexivity | right; eauto | left; reflexivity |].
  exists user, st1. split; [exact Hc|]. split; [exact Hi | exact Hg].
Defined.

Lemma updateUserProfile_age_null_or_NaN_witness :
  (exists st',
     UserService.updateUserProfile (host := Example.host)
       (Js.Finite (inject_Z 2)) {[ "age" := Js.Null ]} Example2.db_two
     = (Ok (Js.Obj (to_object (set_columns {[ "age" := Js.Null ]} Example2.bob))), st')
     /\ age (set_columns {[ "age" := Js.Null ]} Example2.bob) = None)
  /\ UserService.updateUserProfile (host := Example.host)
       (Js.Finite (inject_Z 2)) {[ "age" := Js.Num Js.NaN ]} Example2.db_two
     <> (Throw (Error "Invalid age"), Example2.db_two).
Proof.
  split.
  - apply (updateUserProfile_age_null_or_NaN (host := Example.host)
             Example2.db_two 2 Example2.bob {[ "age" := Js.Null ]});
      [reflexivity | left; reflexivity | reflexivity].
  - apply (updateUserProfile_age_null_or_NaN (host := Example.host)
             Example2.db_two 2 Example2.bob {[ "age" := Js.Num Js.NaN ]});
      [reflexivity | right; reflexivity].
Defined.

Lemma updateUserProfile_passes_email_through_witness :
  exists u' st',
    UserService.updateUserProfile (host := Example.host)
      (Js.Finite (inject_Z 2)) {[ "email" := Js.Str "new@y.com" ]} Example2.db_two
    = (Ok (Js.Obj (to_object u')), st')
    /\ email u' = "new@y.com" /\ id u' = 2.
Proof.
  destruct (updateUserProfile_passes_email_through (host := Example.host)
              Example2.db_two 2 Example2.bob "new@y.com")
    as (u' & st' & Hr & He & Hi & _); [reflexivity | reflexivity |].
  exists u', st'. auto.
Defined.

Lemma cache_entry_lives_for_TTL_witness :
  UserCacheService.get (Js.Finite 7) 3600500
    (UserCacheService.set (Js.Finite 7) (Js.Str "seven") 500 [])
  = (Js.Str "seven", UserCacheService.set (Js.Finite 7) (Js.Str "seven") 500 [])
  /\ UserCacheService.get (Js.Finite 7) 3600501
       (UserCacheService.set (Js.Finite 7) (Js.Str "seven") 500 [])
     = (Js.Null, []).
Proof.
  pose proof (cache_entry_lives_for_TTL [] (Js.Finite 7) (Js.Str "seven") 500 3600500) as H1.
  pose proof (cache_entry_lives_for_TTL [] (Js.Finite 7) (Js.Str "seven") 500 3600501) as H2.
  cbv zeta in H1, H2. destruct H1 as (H1 & _). destruct H2 as (_ & H2 & _).
  split; [apply H1; lia | apply H2; lia].
Defined.

Lemma cache_invalidate_and_clear_witness :
  UserCacheService.get (Js.Finite 7) 600
    (UserCacheService.invalidate (Js.Finite 7)
       (UserCacheService.set (Js.Finite 7) (Js.Str "seven") 500 []))
  = (Js.Null, []).
Proof.
  apply (cache_invalidate_and_clear
           (UserCacheService.set (Js.Finite 7) (Js.Str "seven") 500 [])
           (Js.Finite 7) 600).
  simpl. auto.
Defined.

Lemma getCachedUser_pins_first_answer_witness :
  UserManager.getCachedUser (Js.Finite 3) [] Example2.db_two
  = (Ok (Js.Null, [(Js.Finite 3, Js.Null)]), Example2.db_two)
  /\ forall st2, UserManager.getCachedUser (Js.Finite 3) [(Js.Finite 3, Js.Null)] st2
                 = (Ok (Js.Null, [(Js.Finite 3, Js.Null)]), st2).
Proof.
  split; [reflexivity|].
  apply (getCachedUser_pins_first_answer (Js.Finite 3) [] Example2.db_two
           Js.Null [(Js.Finite 3, Js.Null)] Example2.db_two).
  reflexivity.
Defined.

Lemma bad_register_then_authenticate_witness :
  exists u st1,
    UserService.badCreateUser (Js.Str "x@y.com") (Js.Str "abc12345") Js.Undefined
      Example.db_empty
    = (Ok (Js.Obj (to_object u)), st1)
    /\ BadUserService.badAuthenticateUser (Js.Str "x@y.com") (Js.Str "abc12345") st1
       = (Ok (Js.Obj (to_object u)), st1)
    /\ Js.get "password" (to_object u) = Js.Str "abc12345".
Proof.
  destruct (bad_register_then_authenticate (host := Example.host)
              Example.db_empty "x@y.com" "abc12345" Js.Undefined)
    as (u & st1 & Hc & _ & Ha & Hp & _); [reflexivity | left; reflexivity |].
  exists u, st1. auto.
Defined.

Lemma post_bad_users_contract_witness :
  BadRoutes.post_bad_users (host := Example.host)
    (Example.request ∅ "" {[ "email" := Js.Str "x@y.com"; "password" := Js.Str "abc" ]})
    Example.db_empty
  = (Ok (error_json 400 "Password too short"), Example.db_empty)
  /\ exists u st',
       BadRoutes.post_bad_users (host := Example.host)
         (Example.request ∅ ""
            {[ "email" := Js.Str "x@y.com"; "password" := Js.Str "aaaaaa" ]})
         Example.db_empty
       = (Ok {| status := 201;
                json := Js.Obj {[ "success" := Js.Bool true;
                                  "message" := Js.Str "User created";
                                  "data" := Js.Obj (to_object u) ]} |}, st')
       /\ password u = "aaaaaa" /\ name u = Some "Unknown".
Proof.
  split.
  - pose proof (post_bad_users_contract (host := Example.host)
                  (Example.request ∅ ""
                     {[ "email" := Js.Str "x@y.com"; "password" := Js.Str "abc" ]})
                  Example.db_empty) as H.
    cbv zeta in H. destruct H as (_ & H).
    destruct (H "x@y.com" "abc") as (H1 & _);
      [reflexivity | discriminate | reflexivity | discriminate |].
    apply H1. unfold Js.length. simpl. lia.
  - pose proof (post_bad_users_contract (host := Example.host)
                  (Example.request ∅ ""
                     {[ "email" := Js.Str "x@y.com"; "password" := Js.Str "aaaaaa" ]})
                  Example.db_empty) as H.
    cbv zeta in H. destruct H as (_ & H).
    destruct (H "x@y.com" "aaaaaa") as (_ & _ & H3);
      [reflexivity | discriminate | reflexivity | discriminate |].
    destruct H3 as (u & st' & Hr & _ & _ & Hp & _ & Hn);
      [unfold Js.length; simpl; lia | reflexivity | left; reflexivity |].
    exists u, st'. split; [exact Hr|]. split; [exact Hp | exact Hn].
Defined.

Lemma put_bad_user_hands_body_to_client_witness :
  exists u' st',
    RoutesOf.put_bad_user (trace := Example2.trace) Example2.table
      (Example.request ∅ "2"
         {[ "email" := Js.Str "evil@y.com"; "password" := Js.Str "owned" ]})
      Example2.db_two
    = (Ok {| status := 200; json := Js.Obj (to_object u') |}, st')
    /\ email u' = "evil@y.com" /\ password u' = "owned" /\ id u' = 2
    /\ to_object u' !! "password" = Some (Js.Str "owned").
Proof.
  pose proof (put_bad_user_hands_body_to_client (trace := Example2.trace) Example2.table
                (Example.request ∅ "2"
                   {[ "email" := Js.Str "evil@y.com"; "password" := Js.Str "owned" ]})
                Example2.db_two) as H.
  cbv zeta in H. destruct H as (H & _).
  eexists (set_columns {[ "email" := Js.Str "evil@y.com"; "password" := Js.Str "owned" ]}
             Example2.bob), _.
  split; [apply H; reflexivity|].
  repeat split; reflexivity.
Defined.

End MoreWitnesses.
